(** * Marbles chaincode: a shallow embedding of [chaincode/marbles.go]

    The ledger is reached through [shim.ChaincodeStubInterface]; the Go code
    mutates the stub, here every function takes the stub and returns the
    stub it leaves behind together with Go's [([]byte, error)] pair.
    [fmt.Println] only prints to the peer's console and is left out. *)

From Stdlib Require Import ZArith Ascii String DecimalString DecimalZ DecimalPos Lia.
From stdpp Require Import base option list gmap strings.

Open Scope Z_scope.

(** ** Go values *)

(** [[]byte] and Go strings are byte sequences; [ascii] is the 8-bit byte. *)
Definition bytes : Type := string.

(** Go's [error] built by [errors.New]: the message. *)
Definition error : Type := string.
Definition errors_New (msg : string) : error := msg.

(** [([]byte, error)]: [None] is Go's [nil] on either side. *)
Definition result : Type := option bytes * option error.

Definition dquote : ascii := "034"%char.
Definition backslash : ascii := "092"%char.
Definition quoted (s : string) : string :=
  String dquote (s +:+ String dquote EmptyString).

(** *** strconv *)

(** Go's [int] on the 64-bit platforms the peer runs on. *)
Definition intSize : Z := 64.
Definition int_in_range (n : Z) : bool :=
  (- 2 ^ (intSize - 1) <=? n) && (n <=? 2 ^ (intSize - 1) - 1).

Definition digit_of (ch : ascii) : option Z :=
  let c := Z.of_N (N_of_ascii ch) in
  if (48 <=? c) && (c <=? 57) then Some (c - 48) else None.

(** The digit loop of [strconv]: [n = n*10 + int(ch)], a syntax error on
    any byte outside ['0'..'9']. *)
Fixpoint parse_digits (s : string) (n : Z) : option Z :=
  match s with
  | EmptyString => Some n
  | String ch s' =>
      match digit_of ch with
      | Some d => parse_digits s' (n * 10 + d)
      | None => None
      end
  end.

(** A signed decimal numeral: optional ['+'] or ['-'], then at least one
    digit. No range check. *)
Definition parse_int (s : string) : option Z :=
  match s with
  | EmptyString => None
  | String c s' =>
      let neg := Ascii.eqb c "-" in
      let body := if neg || Ascii.eqb c "+" then s' else s in
      match body with
      | EmptyString => None
      | _ => option_map (fun n => if neg then - n else n) (parse_digits body 0)
      end
  end.

(** [strconv.Atoi]: [parse_int] with the range error of [int]. *)
Definition Atoi (s : string) : option Z :=
  match parse_int s with
  | Some n => if int_in_range n then Some n else None
  | None => None
  end.

(** [strconv.Itoa]: the decimal numeral, ['-'] in front of a negative one. *)
Definition Itoa (n : Z) : string := NilZero.string_of_int (Z.to_int n).

(** ** Definitions of the chaincode *)

Definition marbleIndexStr : string := "_marbleindex".
Definition openTradesStr : string := "_opentrades".
Definition ownerIndexStr : string := "_ownerindex".

Module MarblesIndex.
Record t : Type := mk { ObjectType : string; Marbles : list string }.
End MarblesIndex.

Module Marble.
Record t : Type := mk {
  ObjectType : string;
  Name : string;
  Color : string;
  Size : Z;
  Owner : string
}.
End Marble.

Module Description.
Record t : Type := mk { ObjectType : string; Color : string; Size : Z }.
End Description.

Module AnOpenTrade.
Record t : Type := mk {
  User : string;
  Timestamp : Z;
  Want : Description.t;
  Willing : list Description.t
}.
End AnOpenTrade.

Module AllTrades.
Record t : Type := mk { ObjectType : string; OpenTrades : list AnOpenTrade.t }.
End AllTrades.

Module Owner.
Record t : Type := mk {
  ObjectType : string;
  Username : string;
  Company : string;
  Timestamp : Z
}.
End Owner.

Module OwnersIndex.
Record t : Type := mk { ObjectType : string; Owners : list string }.
End OwnersIndex.

(** ** encoding/json

    [json.Marshal] of the structs above, fields in declaration order under
    their [json:] tags. A slice is a [list]; the empty list stands for the
    [nil] slice and is written [null]. String escaping covers the quote and
    the backslash. *)

Fixpoint json_escape (s : string) : string :=
  match s with
  | EmptyString => EmptyString
  | String c s' =>
      if Ascii.eqb c dquote || Ascii.eqb c backslash
      then String backslash (String c (json_escape s'))
      else String c (json_escape s')
  end.

Definition json_string (s : string) : string := quoted (json_escape s).

Definition json_key (k : string) : string := quoted k +:+ ":".

Fixpoint json_more {A : Type} (enc : A -> string) (l : list A) : string :=
  match l with
  | [] => "]"
  | x :: l' => "," +:+ enc x +:+ json_more enc l'
  end.

Definition json_slice {A : Type} (enc : A -> string) (l : list A) : string :=
  match l with
  | [] => "null"
  | x :: l' => "[" +:+ enc x +:+ json_more enc l'
  end.

Definition json_Marshal_MarblesIndex (v : MarblesIndex.t) : bytes :=
  "{" +:+ json_key "docType" +:+ json_string (MarblesIndex.ObjectType v) +:+
  "," +:+ json_key "marbles" +:+
  json_slice json_string (MarblesIndex.Marbles v) +:+ "}".

Definition json_Marshal_Description (v : Description.t) : string :=
  "{" +:+ json_key "docType" +:+ json_string (Description.ObjectType v) +:+
  "," +:+ json_key "color" +:+ json_string (Description.Color v) +:+
  "," +:+ json_key "size" +:+ Itoa (Description.Size v) +:+ "}".

Definition json_Marshal_AnOpenTrade (v : AnOpenTrade.t) : string :=
  "{" +:+ json_key "user" +:+ json_string (AnOpenTrade.User v) +:+
  "," +:+ json_key "timestamp" +:+ Itoa (AnOpenTrade.Timestamp v) +:+
  "," +:+ json_key "want" +:+ json_Marshal_Description (AnOpenTrade.Want v) +:+
  "," +:+ json_key "willing" +:+
  json_slice json_Marshal_Description (AnOpenTrade.Willing v) +:+ "}".

Definition json_Marshal_AllTrades (v : AllTrades.t) : bytes :=
  "{" +:+ json_key "docType" +:+ json_string (AllTrades.ObjectType v) +:+
  "," +:+ json_key "open_trades" +:+
  json_slice json_Marshal_AnOpenTrade (AllTrades.OpenTrades v) +:+ "}".

Definition json_Marshal_OwnersIndex (v : OwnersIndex.t) : bytes :=
  "{" +:+ json_key "docType" +:+ json_string (OwnersIndex.ObjectType v) +:+
  "," +:+ json_key "owners" +:+
  json_slice json_string (OwnersIndex.Owners v) +:+ "}".

Definition json_Marshal_Marble (v : Marble.t) : bytes :=
  "{" +:+ json_key "docType" +:+ json_string (Marble.ObjectType v) +:+
  "," +:+ json_key "name" +:+ json_string (Marble.Name v) +:+
  "," +:+ json_key "color" +:+ json_string (Marble.Color v) +:+
  "," +:+ json_key "size" +:+ Itoa (Marble.Size v) +:+
  "," +:+ json_key "owner" +:+ json_string (Marble.Owner v) +:+ "}".

Definition json_Marshal_Owner (v : Owner.t) : bytes :=
  "{" +:+ json_key "docType" +:+ json_string (Owner.ObjectType v) +:+
  "," +:+ json_key "username" +:+ json_string (Owner.Username v) +:+
  "," +:+ json_key "company" +:+ json_string (Owner.Company v) +:+
  "," +:+ json_key "timestamp" +:+ Itoa (Owner.Timestamp v) +:+ "}".

(** ** The shim *)

(** The part of [shim.ChaincodeStubInterface] the chaincode calls. *)
Class ChaincodeStubInterface (Stub : Type) : Type := {
  GetFunctionAndParameters : Stub -> string * list string;
  GetState : Stub -> string -> option bytes * option error;
  PutState : Stub -> string -> bytes -> Stub * option error;
  DelState : Stub -> string -> Stub * option error
}.

(** [err = f(...); if err != nil { return nil, err }] *)
Definition or_return {Stub : Type} (c : Stub * option error)
    (k : Stub -> Stub * result) : Stub * result :=
  match c with
  | (stub, Some err) => (stub, (None, Some err))
  | (stub, None) => k stub
  end.

Notation "'let_ok' stub ':=' c 'in' k" :=
  (or_return c (fun stub => k))
  (at level 10, stub name, c at level 100, k at level 200).

(** An in-memory ledger, as [shim.MockStub]: a map from keys to values;
    a key that was never written reads as [nil] with a [nil] error. *)
Record MockStub : Type := mkMockStub {
  function : string;
  args : list string;
  State : gmap string bytes
}.

Definition with_State (stub : MockStub) (st : gmap string bytes) : MockStub :=
  {| function := function stub; args := args stub; State := st |}.

#[global] Instance MockStub_interface : ChaincodeStubInterface MockStub := {
  GetFunctionAndParameters stub := (function stub, args stub);
  GetState stub key := (State stub !! key, None);
  PutState stub key value := (with_State stub (<[key := value]> (State stub)), None);
  DelState stub key := (with_State stub (delete key (State stub)), None)
}.

(** ** Init - reset all the things *)

Section Chaincode.
Context {Stub : Type} `{ChaincodeStubInterface Stub}.

Definition Init (stub : Stub) : Stub * result :=
  let '(_, args) := GetFunctionAndParameters stub in
  if negb (length args =? 1)%nat then
    (stub, (None, Some (errors_New "Incorrect number of arguments. Expecting 1")))
  else
    match Atoi (nth 0 args EmptyString) with
    | None =>
        (stub, (None, Some (errors_New "Expecting integer value for asset holding")))
    | Some Aval =>
        let_ok stub := PutState stub "abc" (Itoa Aval) in
        let marbles := MarblesIndex.mk "MarbleIndex" [] in
        let_ok stub := PutState stub marbleIndexStr (json_Marshal_MarblesIndex marbles) in
        let trades := AllTrades.mk "Trades" [] in
        let_ok stub := PutState stub openTradesStr (json_Marshal_AllTrades trades) in
        let owner := OwnersIndex.mk "OwnerIndex" [] in
        let_ok stub := PutState stub ownerIndexStr (json_Marshal_OwnersIndex owner) in
        (stub, (None, None))
    end.

(** ** Read - read a variable from chaincode state *)

Definition read (stub : Stub) (args : list string) : Stub * result :=
  if negb (length args =? 1)%nat then
    (stub, (None, Some (errors_New
       "Incorrect number of arguments. Expecting name of the var to query")))
  else
    let name := nth 0 args EmptyString in
    let '(valAsbytes, err) := GetState stub name in
    match err with
    | Some _ =>
        let jsonResp :=
          "{" +:+ quoted "Error" +:+ ":" +:+
          quoted ("Failed to get state for " +:+ name) +:+ "}" in
        (stub, (None, Some (errors_New jsonResp)))
    | None => (stub, (valAsbytes, None))
    end.

(** ** Write - write variable into chaincode state *)

Definition write (stub : Stub) (args : list string) : Stub * result :=
  if negb (length args =? 2)%nat then
    (stub, (None, Some (errors_New
       "Incorrect number of arguments. Expecting 2. name of the variable and value to set")))
  else
    let name := nth 0 args EmptyString in
    let value := nth 1 args EmptyString in
    let_ok stub := PutState stub name value in
    (stub, (None, None)).

End Chaincode.

(** ** Invoke - our entry point for invocations

    The handlers [Invoke] routes to live in other files of the chaincode;
    [Invoke] takes them as a table. *)

Module Handlers.
Record t (Stub : Type) : Type := mk {
  delete_marble : Stub -> list string -> Stub * result;
  init_marble : Stub -> list string -> Stub * result;
  set_owner : Stub -> list string -> Stub * result;
  open_trade : Stub -> list string -> Stub * result;
  perform_trade : Stub -> list string -> Stub * result;
  remove_trade : Stub -> list string -> Stub * result;
  init_owner : Stub -> list string -> Stub * result;
  cleanTrades : Stub -> Stub * option error
}.
Arguments mk {Stub}.
Arguments delete_marble {Stub}.
Arguments init_marble {Stub}.
Arguments set_owner {Stub}.
Arguments open_trade {Stub}.
Arguments perform_trade {Stub}.
Arguments remove_trade {Stub}.
Arguments init_owner {Stub}.
Arguments cleanTrades {Stub}.
End Handlers.

Section Dispatch.
Context {Stub : Type} `{ChaincodeStubInterface Stub}.
Variable h : Handlers.t Stub.

Definition Invoke (stub : Stub) : Stub * result :=
  let '(function, args) := GetFunctionAndParameters stub in
  if String.eqb function "init" then
    Init stub
  else if String.eqb function "delete_marble" then
    let '(stub, res) := Handlers.delete_marble h stub args in
    let '(stub, _) := Handlers.cleanTrades h stub in
    (stub, res)
  else if String.eqb function "write" then
    write stub args
  else if String.eqb function "init_marble" then
    Handlers.init_marble h stub args
  else if String.eqb function "set_owner" then
    let '(stub, res) := Handlers.set_owner h stub args in
    let '(stub, _) := Handlers.cleanTrades h stub in
    (stub, res)
  else if String.eqb function "open_trade" then
    Handlers.open_trade h stub args
  else if String.eqb function "perform_trade" then
    let '(stub, res) := Handlers.perform_trade h stub args in
    let '(stub, _) := Handlers.cleanTrades h stub in
    (stub, res)
  else if String.eqb function "remove_trade" then
    Handlers.remove_trade h stub args
  else if String.eqb function "read" then
    read stub args
  else if String.eqb function "init_owner" then
    Handlers.init_owner h stub args
  else
    (stub, (None, Some (errors_New
       ("Received unknown invoke function name: '" +:+ function +:+ "'")))).

End Dispatch.

(** ** encoding/json, decoding

    [json.Unmarshal] into the structs above, for the documents
    [json_Marshal_*] writes: the decoder follows the field order of the
    encoder and rejects anything else. *)

(** Strip the literal [p] from the front of [s]. *)
Fixpoint lit (p s : string) : option string :=
  match p with
  | EmptyString => Some s
  | String c p' =>
      match s with
      | String d s' => if Ascii.eqb c d then lit p' s' else None
      | EmptyString => None
      end
  end.

(** The inside of a JSON string, up to and including the closing quote. *)
Fixpoint unescape (s : string) : option (string * string) :=
  match s with
  | EmptyString => None
  | String c s' =>
      if Ascii.eqb c dquote then Some (EmptyString, s')
      else if Ascii.eqb c backslash then
        match s' with
        | String d s'' =>
            if Ascii.eqb d dquote || Ascii.eqb d backslash then
              '(x, r) ← unescape s''; Some (String d x, r)
            else None
        | EmptyString => None
        end
      else '(x, r) ← unescape s'; Some (String c x, r)
  end.

Definition parse_string (s : string) : option (string * string) :=
  match s with
  | String c s' => if Ascii.eqb c dquote then unescape s' else None
  | EmptyString => None
  end.

Definition is_number_byte (c : ascii) : bool :=
  Ascii.eqb c "-" || match digit_of c with Some _ => true | None => false end.

Fixpoint span_number (s : string) : string * string :=
  match s with
  | EmptyString => (EmptyString, EmptyString)
  | String c s' =>
      if is_number_byte c
      then let '(n, r) := span_number s' in (String c n, r)
      else (EmptyString, s)
  end.

Definition parse_number (s : string) : option (Z * string) :=
  let '(n, r) := span_number s in
  z ← parse_int n; Some (z, r).

(** The elements after the first one, each behind its comma, up to the
    closing bracket. [fuel] bounds the number of elements. *)
Fixpoint parse_more {A : Type} (elem : string -> option (A * string))
    (fuel : nat) (s : string) : option (list A * string) :=
  match fuel with
  | O => None
  | S fuel' =>
      match s with
      | EmptyString => None
      | String c s' =>
          if Ascii.eqb c "]" then Some ([], s')
          else if Ascii.eqb c "," then
            '(x, r) ← elem s';
            '(l, r') ← parse_more elem fuel' r;
            Some (x :: l, r')
          else None
      end
  end.

Definition parse_slice {A : Type} (elem : string -> option (A * string))
    (s : string) : option (list A * string) :=
  match lit "null" s with
  | Some r => Some ([], r)
  | None =>
      s ← lit "[" s;
      '(x, r) ← elem s;
      '(l, r') ← parse_more elem (String.length r) r;
      Some (x :: l, r')
  end.

Definition parse_MarblesIndex (s : string) : option (MarblesIndex.t * string) :=
  s ← lit ("{" +:+ json_key "docType") s;
  '(docType, s) ← parse_string s;
  s ← lit ("," +:+ json_key "marbles") s;
  '(marbles, s) ← parse_slice parse_string s;
  s ← lit "}" s;
  Some (MarblesIndex.mk docType marbles, s).

Definition parse_OwnersIndex (s : string) : option (OwnersIndex.t * string) :=
  s ← lit ("{" +:+ json_key "docType") s;
  '(docType, s) ← parse_string s;
  s ← lit ("," +:+ json_key "owners") s;
  '(owners, s) ← parse_slice parse_string s;
  s ← lit "}" s;
  Some (OwnersIndex.mk docType owners, s).

Definition parse_Marble (s : string) : option (Marble.t * string) :=
  s ← lit ("{" +:+ json_key "docType") s;
  '(docType, s) ← parse_string s;
  s ← lit ("," +:+ json_key "name") s;
  '(name, s) ← parse_string s;
  s ← lit ("," +:+ json_key "color") s;
  '(color, s) ← parse_string s;
  s ← lit ("," +:+ json_key "size") s;
  '(size, s) ← parse_number s;
  s ← lit ("," +:+ json_key "owner") s;
  '(owner, s) ← parse_string s;
  s ← lit "}" s;
  Some (Marble.mk docType name color size owner, s).

Definition parse_Owner (s : string) : option (Owner.t * string) :=
  s ← lit ("{" +:+ json_key "docType") s;
  '(docType, s) ← parse_string s;
  s ← lit ("," +:+ json_key "username") s;
  '(username, s) ← parse_string s;
  s ← lit ("," +:+ json_key "company") s;
  '(company, s) ← parse_string s;
  s ← lit ("," +:+ json_key "timestamp") s;
  '(timestamp, s) ← parse_number s;
  s ← lit "}" s;
  Some (Owner.mk docType username company timestamp, s).

Definition parse_Description (s : string) : option (Description.t * string) :=
  s ← lit ("{" +:+ json_key "docType") s;
  '(docType, s) ← parse_string s;
  s ← lit ("," +:+ json_key "color") s;
  '(color, s) ← parse_string s;
  s ← lit ("," +:+ json_key "size") s;
  '(size, s) ← parse_number s;
  s ← lit "}" s;
  Some (Description.mk docType color size, s).

Definition parse_AnOpenTrade (s : string) : option (AnOpenTrade.t * string) :=
  s ← lit ("{" +:+ json_key "user") s;
  '(user, s) ← parse_string s;
  s ← lit ("," +:+ json_key "timestamp") s;
  '(timestamp, s) ← parse_number s;
  s ← lit ("," +:+ json_key "want") s;
  '(want, s) ← parse_Description s;
  s ← lit ("," +:+ json_key "willing") s;
  '(willing, s) ← parse_slice parse_Description s;
  s ← lit "}" s;
  Some (AnOpenTrade.mk user timestamp want willing, s).

Definition parse_AllTrades (s : string) : option (AllTrades.t * string) :=
  s ← lit ("{" +:+ json_key "docType") s;
  '(docType, s) ← parse_string s;
  s ← lit ("," +:+ json_key "open_trades") s;
  '(open_trades, s) ← parse_slice parse_AnOpenTrade s;
  s ← lit "}" s;
  Some (AllTrades.mk docType open_trades, s).

(** A document is the whole value: nothing may follow it. *)
Definition whole {A : Type} (r : option (A * string)) : option A :=
  match r with
  | Some (v, EmptyString) => Some v
  | _ => None
  end.

Definition json_Unmarshal_MarblesIndex (b : bytes) : option MarblesIndex.t :=
  whole (parse_MarblesIndex b).
Definition json_Unmarshal_OwnersIndex (b : bytes) : option OwnersIndex.t :=
  whole (parse_OwnersIndex b).
Definition json_Unmarshal_Marble (b : bytes) : option Marble.t :=
  whole (parse_Marble b).
Definition json_Unmarshal_Owner (b : bytes) : option Owner.t :=
  whole (parse_Owner b).
Definition json_Unmarshal_AllTrades (b : bytes) : option AllTrades.t :=
  whole (parse_AllTrades b).

(** ** The handlers behind [Invoke]

    The registry and the trade engine are in files of the chaincode other
    than [marbles.go]; they are written here from the specification. *)

(** Modelled from the spec: the error kinds of section 7, which the missing
    handlers return. *)
Definition ArgumentCountError : error := errors_New "ArgumentCountError".
Definition ArgumentTypeError : error := errors_New "ArgumentTypeError".
Definition NotFoundError : error := errors_New "NotFoundError".
Definition AlreadyExistsError : error := errors_New "AlreadyExistsError".
Definition NoMatchError : error := errors_New "NoMatchError".
Definition StoreError : error := errors_New "StoreError".

(** Modelled from the spec: the two kinds of index document of the missing
    Index Manager (section 4.1). *)
Inductive indexKind : Type := MarbleIndexKind | OwnerIndexKind.

Definition index_key (kind : indexKind) : string :=
  match kind with
  | MarbleIndexKind => marbleIndexStr
  | OwnerIndexKind => ownerIndexStr
  end.

Definition decode_index (kind : indexKind) (b : bytes) : option (string * list string) :=
  match kind with
  | MarbleIndexKind =>
      v ← json_Unmarshal_MarblesIndex b;
      Some (MarblesIndex.ObjectType v, MarblesIndex.Marbles v)
  | OwnerIndexKind =>
      v ← json_Unmarshal_OwnersIndex b;
      Some (OwnersIndex.ObjectType v, OwnersIndex.Owners v)
  end.

Definition encode_index (kind : indexKind) (docType : string) (names : list string) : bytes :=
  match kind with
  | MarbleIndexKind => json_Marshal_MarblesIndex (MarblesIndex.mk docType names)
  | OwnerIndexKind => json_Marshal_OwnersIndex (OwnersIndex.mk docType names)
  end.

(** Modelled from the spec: [addToIndex] of the missing Index Manager
    appends the name if absent. *)
Definition add_name (name : string) (names : list string) : list string :=
  if bool_decide (name ∈ names) then names else names ++ [name].

(** Modelled from the spec: [removeFromIndex] of the missing Index Manager
    removes the first occurrence if present. *)
Fixpoint remove_name (name : string) (names : list string) : list string :=
  match names with
  | [] => []
  | n :: names' =>
      if String.eqb n name then names' else n :: remove_name name names'
  end.

(** Modelled from the spec: the tag the missing [init_marble] and
    [init_owner] put in [docType]; the specification does not name it. *)
Definition marbleDocType : string := "Marble".
Definition ownerDocType : string := "Owner".

(** Modelled from the spec: the record stored under [name], when it is a
    Marble of that name ("a Marble with [name] exists"). *)
Definition liveMarble (b : option bytes) (name : string) : option Marble.t :=
  m ← b ≫= json_Unmarshal_Marble;
  if String.eqb (Marble.Name m) name then Some m else None.

Definition liveOwner (b : option bytes) (username : string) : option Owner.t :=
  o ← b ≫= json_Unmarshal_Owner;
  if String.eqb (Owner.Username o) username then Some o else None.

(** Modelled from the spec: a marble matches a description by exact
    (color, size) equality (section 4.4). *)
Definition matches (m : Marble.t) (d : Description.t) : bool :=
  String.eqb (Marble.Color m) (Description.Color d) &&
  (Marble.Size m =? Description.Size d).

Definition set_Owner (m : Marble.t) (owner : string) : Marble.t :=
  Marble.mk (Marble.ObjectType m) (Marble.Name m) (Marble.Color m)
    (Marble.Size m) owner.

(** The open trade at a position; a negative or too large one is out of
    range. *)
Definition trade_at (ts : list AnOpenTrade.t) (i : Z) : option AnOpenTrade.t :=
  if i <? 0 then None else ts !! Z.to_nat i.

(** A helper's answer: a value, or the error that ends the operation. *)
Inductive checked (A : Type) : Type :=
| Checked (a : A)
| Failed (err : error).
Arguments Checked {A}.
Arguments Failed {A}.

Section Engine.
Context {Stub : Type} `{ChaincodeStubInterface Stub}.

(** Modelled from the spec: the missing Index Manager (section 4.1) reads
    the singleton index document, changes the sequence in memory and writes
    the whole document back; stored bytes that do not decode end the
    operation. *)
Definition updateIndex (f : list string -> list string) (stub : Stub)
    (kind : indexKind) : Stub * option error :=
  let '(b, err) := GetState stub (index_key kind) in
  match err with
  | Some e => (stub, Some e)
  | None =>
      match b ≫= decode_index kind with
      | None => (stub, Some StoreError)
      | Some (docType, names) =>
          PutState stub (index_key kind) (encode_index kind docType (f names))
      end
  end.

Definition addToIndex (stub : Stub) (kind : indexKind) (name : string) :=
  updateIndex (add_name name) stub kind.

Definition removeFromIndex (stub : Stub) (kind : indexKind) (name : string) :=
  updateIndex (remove_name name) stub kind.

(** Modelled from the spec: [createMarble] of the missing Asset Registry
    (section 4.2) fails if a Marble with the name exists; otherwise it
    writes the record and then appends the name to the marble index. *)
Definition createMarble (stub : Stub) (name color : string) (size : Z)
    (owner : string) : Stub * result :=
  let '(b, err) := GetState stub name in
  match err with
  | Some e => (stub, (None, Some e))
  | None =>
      match liveMarble b name with
      | Some _ => (stub, (None, Some AlreadyExistsError))
      | None =>
          let marble := Marble.mk marbleDocType name color size owner in
          let_ok stub := PutState stub name (json_Marshal_Marble marble) in
          let_ok stub := addToIndex stub MarbleIndexKind name in
          (stub, (None, None))
      end
  end.

(** Modelled from the spec: [deleteMarble] of the missing Asset Registry
    fails if no such Marble exists; otherwise it removes the record and
    then removes the name from the marble index. *)
Definition deleteMarble (stub : Stub) (name : string) : Stub * result :=
  let '(b, err) := GetState stub name in
  match err with
  | Some e => (stub, (None, Some e))
  | None =>
      match liveMarble b name with
      | None => (stub, (None, Some NotFoundError))
      | Some _ =>
          let_ok stub := DelState stub name in
          let_ok stub := removeFromIndex stub MarbleIndexKind name in
          (stub, (None, None))
      end
  end.

(** Modelled from the spec: [setOwner] of the missing Asset Registry fails
    if the Marble does not exist, does not look the new owner up, and
    rewrites the record with the new owner. *)
Definition setOwner (stub : Stub) (name newOwner : string) : Stub * result :=
  let '(b, err) := GetState stub name in
  match err with
  | Some e => (stub, (None, Some e))
  | None =>
      match liveMarble b name with
      | None => (stub, (None, Some NotFoundError))
      | Some m =>
          let_ok stub := PutState stub name (json_Marshal_Marble (set_Owner m newOwner)) in
          (stub, (None, None))
      end
  end.

(** Modelled from the spec: [createOwner] of the missing Owner Registry
    (section 4.3) fails if the username exists; otherwise it writes the
    record and appends the username to the owner index. [now] is the
    registration time. *)
Definition createOwner (now : Z) (stub : Stub) (username company : string)
    : Stub * result :=
  let '(b, err) := GetState stub username in
  match err with
  | Some e => (stub, (None, Some e))
  | None =>
      match liveOwner b username with
      | Some _ => (stub, (None, Some AlreadyExistsError))
      | None =>
          let owner := Owner.mk ownerDocType username company now in
          let_ok stub := PutState stub username (json_Marshal_Owner owner) in
          let_ok stub := addToIndex stub OwnerIndexKind username in
          (stub, (None, None))
      end
  end.

(** Modelled from the spec: the missing Trade Engine re-reads the one
    [AllTrades] document in every operation (section 3). *)
Definition readTrades (stub : Stub) : checked AllTrades.t :=
  let '(b, err) := GetState stub openTradesStr in
  match err with
  | Some e => Failed e
  | None =>
      match b ≫= json_Unmarshal_AllTrades with
      | None => Failed StoreError
      | Some trades => Checked trades
      end
  end.

Definition writeTrades (stub : Stub) (docType : string)
    (ts : list AnOpenTrade.t) : Stub * option error :=
  PutState stub openTradesStr (json_Marshal_AllTrades (AllTrades.mk docType ts)).

(** Modelled from the spec: the missing Trade Engine selects a marble of
    [user] that matches some entry of [willing], the first one in index
    order (sections 4.4 and 9). *)
Fixpoint firstOffered (stub : Stub) (user : string)
    (willing : list Description.t) (names : list string)
    : checked (option Marble.t) :=
  match names with
  | [] => Checked None
  | name :: names' =>
      let '(b, err) := GetState stub name in
      match err with
      | Some e => Failed e
      | None =>
          match liveMarble b name with
          | Some m =>
              if String.eqb (Marble.Owner m) user && existsb (matches m) willing
              then Checked (Some m)
              else firstOffered stub user willing names'
          | None => firstOffered stub user willing names'
          end
      end
  end.

(** Modelled from the spec: the search of the missing Trade Engine goes
    over the names the marble index lists; an index document that is not
    there or does not decode lists none, so nothing is found ("no match",
    section 4.4). *)
Definition findOffered (stub : Stub) (user : string)
    (willing : list Description.t) : checked (option Marble.t) :=
  let '(b, err) := GetState stub marbleIndexStr in
  match err with
  | Some e => Failed e
  | None =>
      match b ≫= json_Unmarshal_MarblesIndex with
      | None => Checked None
      | Some index => firstOffered stub user willing (MarblesIndex.Marbles index)
      end
  end.

(** Modelled from the spec: [openTrade] of the missing Trade Engine fails
    if [willing] is empty, checked before anything is read; otherwise it
    appends the offer, stamped [now], to the aggregate document. *)
Definition openTrade (now : Z) (stub : Stub) (user : string)
    (want : Description.t) (willing : list Description.t) : Stub * result :=
  match willing with
  | [] => (stub, (None, Some ArgumentCountError))
  | _ =>
      match readTrades stub with
      | Failed e => (stub, (None, Some e))
      | Checked trades =>
          let trade := AnOpenTrade.mk user now want willing in
          let_ok stub := writeTrades stub (AllTrades.ObjectType trades)
                           (AllTrades.OpenTrades trades ++ [trade]) in
          (stub, (None, None))
      end
  end.

(** Modelled from the spec: [performTrade] of the missing Trade Engine.
    It locates the trade, checks the named marble against [want], selects
    a marble of the trade's user matching [willing], swaps the two owners
    and removes the trade; without a match on either side it fails with
    the no-match condition before any write. *)
Definition performTrade (stub : Stub) (tradeIndex : Z)
    (counterpartyOwner marbleName : string) : Stub * result :=
  match readTrades stub with
  | Failed e => (stub, (None, Some e))
  | Checked trades =>
      match trade_at (AllTrades.OpenTrades trades) tradeIndex with
      | None => (stub, (None, Some NotFoundError))
      | Some trade =>
          let '(b, err) := GetState stub marbleName in
          match err with
          | Some e => (stub, (None, Some e))
          | None =>
              match liveMarble b marbleName with
              | None => (stub, (None, Some NotFoundError))
              | Some m =>
                  if negb (matches m (AnOpenTrade.Want trade)) then
                    (stub, (None, Some NoMatchError))
                  else
                    match findOffered stub (AnOpenTrade.User trade)
                            (AnOpenTrade.Willing trade) with
                    | Failed e => (stub, (None, Some e))
                    | Checked None => (stub, (None, Some NoMatchError))
                    | Checked (Some offered) =>
                        let_ok stub :=
                          (let '(stub, res) :=
                             setOwner stub marbleName (AnOpenTrade.User trade) in
                           (stub, snd res)) in
                        let_ok stub :=
                          (let '(stub, res) :=
                             setOwner stub (Marble.Name offered) counterpartyOwner in
                           (stub, snd res)) in
                        let_ok stub :=
                          writeTrades stub (AllTrades.ObjectType trades)
                            (delete (Z.to_nat tradeIndex) (AllTrades.OpenTrades trades)) in
                        (stub, (None, None))
                    end
              end
          end
      end
  end.

(** Modelled from the spec: [removeTrade] of the missing Trade Engine
    removes the entry at the position, and fails if it is out of range. *)
Definition removeTrade (stub : Stub) (tradeIndex : Z) : Stub * result :=
  match readTrades stub with
  | Failed e => (stub, (None, Some e))
  | Checked trades =>
      match trade_at (AllTrades.OpenTrades trades) tradeIndex with
      | None => (stub, (None, Some NotFoundError))
      | Some _ =>
          let_ok stub :=
            writeTrades stub (AllTrades.ObjectType trades)
              (delete (Z.to_nat tradeIndex) (AllTrades.OpenTrades trades)) in
          (stub, (None, None))
      end
  end.

(** Modelled from the spec: the pass of the missing [cleanTrades] over the
    open trades: a trade stays when its user still owns a live marble
    matching some entry of [willing], and is pruned otherwise. *)
Fixpoint pruneTrades (stub : Stub) (ts : list AnOpenTrade.t)
    : checked (list AnOpenTrade.t) :=
  match ts with
  | [] => Checked []
  | trade :: ts' =>
      match findOffered stub (AnOpenTrade.User trade) (AnOpenTrade.Willing trade) with
      | Failed e => Failed e
      | Checked found =>
          match pruneTrades stub ts' with
          | Failed e => Failed e
          | Checked kept =>
              Checked (if found is Some _ then trade :: kept else kept)
          end
      end
  end.

(** Modelled from the spec: [cleanTrades] of the missing Trade Engine
    reads the aggregate document, prunes it and writes it back. *)
Definition cleanTrades (stub : Stub) : Stub * option error :=
  match readTrades stub with
  | Failed e => (stub, Some e)
  | Checked trades =>
      match pruneTrades stub (AllTrades.OpenTrades trades) with
      | Failed e => (stub, Some e)
      | Checked kept => writeTrades stub (AllTrades.ObjectType trades) kept
      end
  end.

End Engine.

(** ** Make Timestamp - create a timestamp in ms

    [unixNano] is the reading [time.Now().UnixNano()] of the clock; Go's
    integer division truncates. *)
Definition makeTimestamp (unixNano : Z) : Z :=
  Z.quot unixNano (Z.quot 1000000 1).

(** ** The handlers, from their argument lists *)

(** Modelled from the spec: the missing handlers decode positional string
    arguments (section 6); a description takes two positions, its color and
    its size. *)
Fixpoint descriptions (l : list string) : checked (list Description.t) :=
  match l with
  | [] => Checked []
  | [_] => Failed ArgumentCountError
  | color :: size :: l' =>
      match Atoi size with
      | None => Failed ArgumentTypeError
      | Some n =>
          match descriptions l' with
          | Failed e => Failed e
          | Checked ds => Checked (Description.mk EmptyString color n :: ds)
          end
      end
  end.

Section HandlersFromSpec.
Context {Stub : Type} `{ChaincodeStubInterface Stub}.
Variable unixNano : Z.

(** Modelled from the spec: [init_marble] is missing; it is
    [createMarble(name, color, size, owner)] behind the arity and the
    numeric-size checks of section 7. *)
Definition init_marble (stub : Stub) (args : list string) : Stub * result :=
  if negb (length args =? 4)%nat then (stub, (None, Some ArgumentCountError))
  else
    match Atoi (nth 2 args EmptyString) with
    | None => (stub, (None, Some ArgumentTypeError))
    | Some size =>
        createMarble stub (nth 0 args EmptyString) (nth 1 args EmptyString)
          size (nth 3 args EmptyString)
    end.

(** Modelled from the spec: [delete_marble] is missing; it is
    [deleteMarble(name)] behind the arity check. *)
Definition delete_marble (stub : Stub) (args : list string) : Stub * result :=
  if negb (length args =? 1)%nat then (stub, (None, Some ArgumentCountError))
  else deleteMarble stub (nth 0 args EmptyString).

(** Modelled from the spec: [set_owner] is missing; it is
    [setOwner(name, newOwner)] behind the arity check. *)
Definition set_owner (stub : Stub) (args : list string) : Stub * result :=
  if negb (length args =? 2)%nat then (stub, (None, Some ArgumentCountError))
  else setOwner stub (nth 0 args EmptyString) (nth 1 args EmptyString).

(** Modelled from the spec: [open_trade] is missing; it is
    [openTrade(user, want, willing[])], the descriptions laid out after the
    user. *)
Definition open_trade (stub : Stub) (args : list string) : Stub * result :=
  match args with
  | [] => (stub, (None, Some ArgumentCountError))
  | user :: rest =>
      match descriptions rest with
      | Failed e => (stub, (None, Some e))
      | Checked [] => (stub, (None, Some ArgumentCountError))
      | Checked (want :: willing) =>
          openTrade (makeTimestamp unixNano) stub user want willing
      end
  end.

(** Modelled from the spec: [perform_trade] is missing; it is
    [performTrade(tradeIndex, counterpartyOwner, marbleName)] behind the
    arity and the numeric-index checks. *)
Definition perform_trade (stub : Stub) (args : list string) : Stub * result :=
  if negb (length args =? 3)%nat then (stub, (None, Some ArgumentCountError))
  else
    match Atoi (nth 0 args EmptyString) with
    | None => (stub, (None, Some ArgumentTypeError))
    | Some tradeIndex =>
        performTrade stub tradeIndex (nth 1 args EmptyString)
          (nth 2 args EmptyString)
    end.

(** Modelled from the spec: [remove_trade] is missing; it is
    [removeTrade(tradeIndex)] behind the arity and the numeric-index
    checks. *)
Definition remove_trade (stub : Stub) (args : list string) : Stub * result :=
  if negb (length args =? 1)%nat then (stub, (None, Some ArgumentCountError))
  else
    match Atoi (nth 0 args EmptyString) with
    | None => (stub, (None, Some ArgumentTypeError))
    | Some tradeIndex => removeTrade stub tradeIndex
    end.

(** Modelled from the spec: [init_owner] is missing; it is
    [createOwner(username, company)] behind the arity check. *)
Definition init_owner (stub : Stub) (args : list string) : Stub * result :=
  if negb (length args =? 2)%nat then (stub, (None, Some ArgumentCountError))
  else
    createOwner (makeTimestamp unixNano) stub (nth 0 args EmptyString)
      (nth 1 args EmptyString).

(** The table [Invoke] routes to. *)
Definition marbles : Handlers.t Stub :=
  Handlers.mk delete_marble init_marble set_owner open_trade perform_trade
    remove_trade init_owner cleanTrades.

(** The operations of the call surface (section 6), each on the arguments
    of the invocation. *)
Inductive operation : Type :=
| OpInit | OpRead | OpWrite | OpInitMarble | OpDeleteMarble | OpSetOwner
| OpOpenTrade | OpPerformTrade | OpRemoveTrade | OpInitOwner.

Definition operate (op : operation) (stub : Stub) : Stub * result :=
  let args := snd (GetFunctionAndParameters stub) in
  match op with
  | OpInit => Init stub
  | OpRead => read stub args
  | OpWrite => write stub args
  | OpInitMarble => init_marble stub args
  | OpDeleteMarble => delete_marble stub args
  | OpSetOwner => set_owner stub args
  | OpOpenTrade => open_trade stub args
  | OpPerformTrade => perform_trade stub args
  | OpRemoveTrade => remove_trade stub args
  | OpInitOwner => init_owner stub args
  end.

End HandlersFromSpec.

(** ** What the claims speak about *)

(** The argument lists an operation accepts: its arity, and a numeral
    where it takes a number (section 7: wrong arity, non-numeric size). *)
Definition numeric (s : string) : bool :=
  match Atoi s with Some _ => true | None => false end.

Fixpoint sizes (l : list string) : list string :=
  match l with
  | _ :: size :: l' => size :: sizes l'
  | _ => []
  end.

Definition valid_args (op : operation) (args : list string) : bool :=
  match op with
  | OpInit => (length args =? 1)%nat && numeric (nth 0 args EmptyString)
  | OpRead => (length args =? 1)%nat
  | OpWrite => (length args =? 2)%nat
  | OpInitMarble => (length args =? 4)%nat && numeric (nth 2 args EmptyString)
  | OpDeleteMarble => (length args =? 1)%nat
  | OpSetOwner => (length args =? 2)%nat
  | OpOpenTrade =>
      (5 <=? length args)%nat && Nat.odd (length args) &&
      forallb numeric (sizes (tail args))
  | OpPerformTrade => (length args =? 3)%nat && numeric (nth 0 args EmptyString)
  | OpRemoveTrade => (length args =? 1)%nat && numeric (nth 0 args EmptyString)
  | OpInitOwner => (length args =? 2)%nat
  end.





(** The names the marble index document lists, when it is there and
    decodes. *)
Definition marbleIndex (stub : MockStub) : option (list string) :=
  index ← State stub !! marbleIndexStr ≫= json_Unmarshal_MarblesIndex;
  Some (MarblesIndex.Marbles index).

(** [key] is the primary key of a live Marble record. *)
Definition isLive (stub : MockStub) (key : string) : Prop :=
  is_Some (liveMarble (State stub !! key) key).

(** The index lists exactly the live primary keys, each once. *)
Definition index_consistent (stub : MockStub) : Prop :=
  ∃ names, marbleIndex stub = Some names ∧ NoDup names ∧
           ∀ key, key ∈ names ↔ isLive stub key.

(** The keys [Init] writes. *)
Definition reset_keys : list string :=
  ["abc"; marbleIndexStr; openTradesStr; ownerIndexStr].

(** The state a successful [Init] leaves, on a ledger that held no Marble
    record under a key [Init] does not write. *)
Definition initialized (stub : MockStub) : Prop :=
  ∃ stub0, (∀ key, isLive stub0 key → key ∈ reset_keys) ∧
           Init stub0 = (stub, (None, None)).


(** The open trades of the aggregate document. *)
Definition openTrades (stub : MockStub) : option (list AnOpenTrade.t) :=
  trades ← State stub !! openTradesStr ≫= json_Unmarshal_AllTrades;
  Some (AllTrades.OpenTrades trades).

(** The handler a function name is routed to, for the names that have one
    of their own. *)
Definition handler_of {Stub : Type} `{ChaincodeStubInterface Stub}
    (h : Handlers.t Stub) (function : string)
    : option (Stub -> list string -> Stub * result) :=
  if String.eqb function "delete_marble" then Some (Handlers.delete_marble h)
  else if String.eqb function "write" then Some write
  else if String.eqb function "init_marble" then Some (Handlers.init_marble h)
  else if String.eqb function "set_owner" then Some (Handlers.set_owner h)
  else if String.eqb function "open_trade" then Some (Handlers.open_trade h)
  else if String.eqb function "perform_trade" then Some (Handlers.perform_trade h)
  else if String.eqb function "remove_trade" then Some (Handlers.remove_trade h)
  else if String.eqb function "read" then Some read
  else if String.eqb function "init_owner" then Some (Handlers.init_owner h)
  else None.

(** The functions that change who owns what, or delete a marble. *)
Definition mutates_ownership (function : string) : bool :=
  String.eqb function "delete_marble" || String.eqb function "set_owner" ||
  String.eqb function "perform_trade".

(** The same table with another [cleanTrades]. *)
Definition with_cleanTrades {Stub : Type} (h : Handlers.t Stub)
    (c : Stub -> Stub * option error) : Handlers.t Stub :=
  Handlers.mk (Handlers.delete_marble h) (Handlers.init_marble h)
    (Handlers.set_owner h) (Handlers.open_trade h) (Handlers.perform_trade h)
    (Handlers.remove_trade h) (Handlers.init_owner h) c.

(** The usernames the owner index document lists. *)
Definition ownerIndex (stub : MockStub) : option (list string) :=
  index ← State stub !! ownerIndexStr ≫= json_Unmarshal_OwnersIndex;
  Some (OwnersIndex.Owners index).

(** A ledger nothing was written to, about to be initialised. *)
Definition fresh_ledger : MockStub := mkMockStub "init" ["0"] ∅.

(** The ledger after a call through [Invoke], and after a list of them. *)
Definition after_call (stub : MockStub) (call : string * list string) : MockStub :=
  fst (Invoke (marbles 0) (mkMockStub (fst call) (snd call) (State stub))).

(** Two marbles and one open trade: alice offers a blue 10 for a red 5. *)
Definition trading_ledger : MockStub :=
  fold_left after_call
    [("init", ["0"]);
     ("init_marble", ["m1"; "blue"; "10"; "alice"]);
     ("init_marble", ["m2"; "red"; "5"; "bob"]);
     ("open_trade", ["alice"; "red"; "5"; "blue"; "10"])]
    fresh_ledger.

(** An open trade whose user owns no marble: carol offers a blue 10. *)
Definition stale_ledger : MockStub :=
  fold_left after_call
    [("init", ["0"]);
     ("init_marble", ["m2"; "red"; "5"; "bob"]);
     ("open_trade", ["carol"; "red"; "5"; "blue"; "10"])]
    fresh_ledger.

(** A ledger written by hand, without a marble index: one open trade of
    carol, who owns nothing, and bob's red 5. *)
Definition unindexed_ledger : MockStub :=
  fold_left after_call
    [("write",
      [openTradesStr;
       json_Marshal_AllTrades
         (AllTrades.mk "Trades"
            [AnOpenTrade.mk "carol" 0 (Description.mk EmptyString "red" 5)
               [Description.mk EmptyString "blue" 10]])]);
     ("write",
      ["m2"; json_Marshal_Marble (Marble.mk marbleDocType "m2" "red" 5 "bob")])]
    (mkMockStub EmptyString [] ∅).

(** The function names [Invoke] knows. *)
Definition known_functions : list string :=
  ["init"; "delete_marble"; "write"; "init_marble"; "set_owner"; "open_trade";
   "perform_trade"; "remove_trade"; "read"; "init_owner"].

(** A ledger whose peer refuses some writes: [refused key] is the error
    [PutState] and [DelState] return for the key, the ledger left as it
    was. *)
Record FaultyStub : Type := mkFaultyStub {
  ledger : MockStub;
  refused : string -> option error
}.

#[global] Instance FaultyStub_interface : ChaincodeStubInterface FaultyStub := {
  GetFunctionAndParameters stub := (function (ledger stub), args (ledger stub));
  GetState stub key := (State (ledger stub) !! key, None);
  PutState stub key value :=
    match refused stub key with
    | Some e => (stub, Some e)
    | None =>
        (mkFaultyStub
           (with_State (ledger stub) (<[key := value]> (State (ledger stub))))
           (refused stub), None)
    end;
  DelState stub key :=
    match refused stub key with
    | Some e => (stub, Some e)
    | None =>
        (mkFaultyStub
           (with_State (ledger stub) (delete key (State (ledger stub))))
           (refused stub), None)
    end
}.

(** A peer that takes every write but the one of the marble index. *)
Definition index_refusing_ledger : FaultyStub :=
  mkFaultyStub fresh_ledger
    (fun key => if String.eqb key marbleIndexStr
                then Some (errors_New "ledger unavailable") else None).

(** * Properties *)

(** ** Dispatch *)

Section DispatchFacts.
Context {Stub : Type} `{ChaincodeStubInterface Stub}.
Variable h : Handlers.t Stub.

Ltac route f :=
  repeat match goal with
  | |- context [String.eqb f ?l] =>
      destruct (String.eqb_spec f l) as [->|?]; cbn
  | H : context [String.eqb f ?l] |- _ =>
      destruct (String.eqb_spec f l) as [->|?]; cbn in H
  end.

Lemma Invoke_routes (stub : Stub) (f : string) (l : list string)
    (handler : Stub -> list string -> Stub * result) :
  GetFunctionAndParameters stub = (f, l) ->
  f <> "init" ->
  handler_of h f = Some handler ->
  Invoke h stub =
    if mutates_ownership f
    then (fst (Handlers.cleanTrades h (fst (handler stub l))), snd (handler stub l))
    else handler stub l.
Proof.
  intros Hfa Hinit Hh. unfold Invoke. rewrite Hfa.
  destruct (String.eqb_spec f "init") as [->|_]; [done|].
  unfold handler_of in Hh.
  route f; try (injection Hh as <-); try discriminate;
    try reflexivity;
    try (match goal with
         | |- context [?g h stub l] => destruct (g h stub l) as [stub1 res]
         end; cbn; destruct (Handlers.cleanTrades h stub1); reflexivity).
Qed.

End DispatchFacts.

Lemma handler_of_init {Stub : Type} `{ChaincodeStubInterface Stub}
    (h : Handlers.t Stub) : handler_of h "init" = None.
Proof. reflexivity. Qed.

Lemma handler_of_with_cleanTrades {Stub : Type} `{ChaincodeStubInterface Stub}
    (h : Handlers.t Stub) (c : Stub -> Stub * option error) (f : string) :
  handler_of (with_cleanTrades h c) f = handler_of h f.
Proof. reflexivity. Qed.

(** C2. An invocation routed to [delete_marble], [set_owner] or
    [perform_trade] runs the handler and then [cleanTrades] on the stub the
    handler left; an invocation routed to [init_marble], [open_trade],
    [remove_trade], [init_owner], [read] or [write] is the handler alone,
    whatever [cleanTrades] is. *)
Theorem Invoke_cleanTrades_post_step {Stub : Type} `{ChaincodeStubInterface Stub}
    (h : Handlers.t Stub) (stub : Stub) (f : string) (l : list string)
    (handler : Stub -> list string -> Stub * result) :
  GetFunctionAndParameters stub = (f, l) ->
  handler_of h f = Some handler ->
  (mutates_ownership f = true ->
     Invoke h stub =
       (fst (Handlers.cleanTrades h (fst (handler stub l))), snd (handler stub l))) /\
  (mutates_ownership f = false ->
     forall c, Invoke (with_cleanTrades h c) stub = handler stub l).
Proof.
  intros Hfa Hh.
  assert (Hinit : f <> "init").
  { intros ->. rewrite handler_of_init in Hh. discriminate. }
  split; intros Hm.
  - rewrite (Invoke_routes h stub f l handler Hfa Hinit Hh), Hm. reflexivity.
  - intros c.
    rewrite (Invoke_routes (with_cleanTrades h c) stub f l handler Hfa Hinit).
    + rewrite Hm. reflexivity.
    + rewrite handler_of_with_cleanTrades. exact Hh.
Qed.

(** C10. For [delete_marble], [set_owner] and [perform_trade], whatever
    result and error the handler returned and whatever error [cleanTrades]
    returned, [Invoke] runs [cleanTrades] on the handler's stub and returns
    the handler's result and error. *)
Theorem Invoke_keeps_handler_result {Stub : Type} `{ChaincodeStubInterface Stub}
    (h : Handlers.t Stub) (stub : Stub) (f : string) (l : list string)
    (handler : Stub -> list string -> Stub * result)
    (stub1 stub2 : Stub) (res : option bytes) (err cerr : option error) :
  GetFunctionAndParameters stub = (f, l) ->
  handler_of h f = Some handler ->
  mutates_ownership f = true ->
  handler stub l = (stub1, (res, err)) ->
  Handlers.cleanTrades h stub1 = (stub2, cerr) ->
  Invoke h stub = (stub2, (res, err)).
Proof.
  intros Hfa Hh Hm Hres Hclean.
  assert (Hinit : f <> "init").
  { intros ->. rewrite handler_of_init in Hh. discriminate. }
  rewrite (Invoke_routes h stub f l handler Hfa Hinit Hh), Hm, Hres.
  cbn. rewrite Hclean. reflexivity.
Qed.

(** ** read, write, Init *)

Section ChaincodeFacts.
Context {Stub : Type} `{ChaincodeStubInterface Stub}.

Lemma read_arity (stub : Stub) (l : list string) :
  length l <> 1%nat ->
  read stub l = (stub, (None, Some (errors_New
    "Incorrect number of arguments. Expecting name of the var to query"))).
Proof.
  intros Hl. unfold read.
  destruct (Nat.eqb_spec (length l) 1) as [E|_]; [contradiction|reflexivity].
Qed.

Lemma read_key (stub : Stub) (key : string) :
  read stub [key] =
    (stub,
     match GetState stub key with
     | (valAsbytes, None) => (valAsbytes, None)
     | (_, Some _) =>
         (None, Some (errors_New
            ("{" +:+ quoted "Error" +:+ ":" +:+
             quoted ("Failed to get state for " +:+ key) +:+ "}")))
     end).
Proof.
  unfold read. cbn. destruct (GetState stub key) as [v [e|]]; reflexivity.
Qed.

Lemma write_arity (stub : Stub) (l : list string) :
  length l <> 2%nat ->
  write stub l = (stub, (None, Some (errors_New
    "Incorrect number of arguments. Expecting 2. name of the variable and value to set"))).
Proof.
  intros Hl. unfold write.
  destruct (Nat.eqb_spec (length l) 2) as [E|_]; [contradiction|reflexivity].
Qed.

Lemma Init_arity (stub : Stub) :
  length (snd (GetFunctionAndParameters stub)) <> 1%nat ->
  Init stub = (stub, (None, Some (errors_New
    "Incorrect number of arguments. Expecting 1"))).
Proof.
  unfold Init. destruct (GetFunctionAndParameters stub) as [f l]. cbn.
  intros Hl.
  destruct (Nat.eqb_spec (length l) 1) as [E|_]; [contradiction|reflexivity].
Qed.

Lemma Init_not_integer (stub : Stub) :
  Atoi (nth 0 (snd (GetFunctionAndParameters stub)) EmptyString) = None ->
  exists e, Init stub = (stub, (None, Some e)).
Proof.
  unfold Init. destruct (GetFunctionAndParameters stub) as [f l]. cbn.
  intros Ha. destruct (negb _); [eauto|]. rewrite Ha. eauto.
Qed.

End ChaincodeFacts.

Lemma Init_MockStub (stub : MockStub) (a : string) (n : Z) :
  args stub = [a] -> Atoi a = Some n ->
  Init stub =
    (with_State stub
       (<[ownerIndexStr := json_Marshal_OwnersIndex (OwnersIndex.mk "OwnerIndex" [])]>
        (<[openTradesStr := json_Marshal_AllTrades (AllTrades.mk "Trades" [])]>
         (<[marbleIndexStr := json_Marshal_MarblesIndex (MarblesIndex.mk "MarbleIndex" [])]>
          (<["abc" := Itoa n]> (State stub))))),
     (None, None)).
Proof.
  intros Hl Ha. unfold Init. cbn. rewrite Hl. cbn. rewrite Ha. reflexivity.
Qed.

Lemma Invoke_init {Stub : Type} `{ChaincodeStubInterface Stub}
    (h : Handlers.t Stub) (stub : Stub) (l : list string) :
  GetFunctionAndParameters stub = ("init", l) -> Invoke h stub = Init stub.
Proof. intros Hfa. unfold Invoke. rewrite Hfa. reflexivity. Qed.

Lemma Invoke_keeps_handler_result_witness :
  Invoke (marbles 0) (mkMockStub "delete_marble" [] ∅) =
    (mkMockStub "delete_marble" [] ∅, (None, Some ArgumentCountError)).
Proof.
  apply (Invoke_keeps_handler_result (marbles 0)
           (mkMockStub "delete_marble" [] ∅) "delete_marble" []
           (delete_marble (Stub := MockStub)) (mkMockStub "delete_marble" [] ∅)
           (mkMockStub "delete_marble" [] ∅) None (Some ArgumentCountError)
           (Some StoreError)); reflexivity.
Defined.

Lemma Invoke_cleanTrades_post_step_witness :
  Invoke (marbles 0) (mkMockStub "set_owner" ["m1"; "bob"] ∅) =
    (fst (cleanTrades (fst (set_owner (mkMockStub "set_owner" ["m1"; "bob"] ∅)
                              ["m1"; "bob"]))),
     snd (set_owner (mkMockStub "set_owner" ["m1"; "bob"] ∅) ["m1"; "bob"])).
Proof.
  destruct (Invoke_cleanTrades_post_step (marbles 0)
              (mkMockStub "set_owner" ["m1"; "bob"] ∅) "set_owner"
              ["m1"; "bob"] (set_owner (Stub := MockStub)))
    as [Hpost _]; [reflexivity | reflexivity |].
  apply Hpost. reflexivity.
Defined.

(** C5, as stated, fails: nothing is stored under ["m1"] on the empty
    ledger, and [read] returns [nil] bytes with a [nil] error. *)
Lemma read_absent_key_is_no_error :
  State (mkMockStub "read" ["m1"] ∅) !! "m1" = None /\
  read (mkMockStub "read" ["m1"] ∅) ["m1"] =
    (mkMockStub "read" ["m1"] ∅, (None, None)) /\
  ~ (exists e, snd (snd (read (mkMockStub "read" ["m1"] ∅) ["m1"])) = Some e).
Proof.
  split; [reflexivity|]. split; [reflexivity|].
  intros [e He]. discriminate He.
Qed.

(** C5, amended. [read] with exactly one argument leaves the stub as it
    was and hands on what [GetState] gave for the key: the bytes unchanged
    with no error, and an error exactly when [GetState] returned one. On
    the ledger that is the stored value, or [nil] bytes and no error when
    nothing is stored under the key. *)
Theorem read_passes_GetState_through :
  (forall (Stub : Type) (I : ChaincodeStubInterface Stub) (stub : Stub)
          (key : string),
     read stub [key] =
       (stub,
        match GetState stub key with
        | (valAsbytes, None) => (valAsbytes, None)
        | (_, Some _) =>
            (None, Some (errors_New
               ("{" +:+ quoted "Error" +:+ ":" +:+
                quoted ("Failed to get state for " +:+ key) +:+ "}")))
        end)) /\
  (forall (stub : MockStub) (key : string),
     read stub [key] = (stub, (State stub !! key, None))).
Proof.
  split.
  - intros Stub I stub key. apply read_key.
  - intros stub key. rewrite read_key. reflexivity.
Qed.

(** C8. [write] with a key and a value returns no error and leaves the
    ledger with exactly that value under that key and every other key as
    it was. *)
Theorem write_stores_only_the_key (stub : MockStub) (key value : string) :
  write stub [key; value] =
    (with_State stub (<[key := value]> (State stub)), (None, None)) /\
  forall key',
    State (fst (write stub [key; value])) !! key' =
      if decide (key = key') then Some value else State stub !! key'.
Proof.
  split; [reflexivity|].
  intros key'. cbn. apply lookup_insert.
Qed.

(** C9. Invoked as ["init"] with one argument that [strconv.Atoi] reads as
    the integer [n], the chaincode returns no error and leaves the ledger
    with [n] in decimal under ["abc"], the three singleton documents empty,
    and every other key as it was; with another number of arguments, or an
    argument that is not an integer, it returns an error and the stub as
    it was. *)
Theorem Invoke_init_resets (h : Handlers.t MockStub) (stub : MockStub) :
  function stub = "init" ->
  (forall a n, args stub = [a] -> Atoi a = Some n ->
     snd (Invoke h stub) = (None, None) /\
     State (fst (Invoke h stub)) =
       <[ownerIndexStr := json_Marshal_OwnersIndex (OwnersIndex.mk "OwnerIndex" [])]>
       (<[openTradesStr := json_Marshal_AllTrades (AllTrades.mk "Trades" [])]>
        (<[marbleIndexStr := json_Marshal_MarblesIndex (MarblesIndex.mk "MarbleIndex" [])]>
         (<["abc" := Itoa n]> (State stub)))) /\
     State (fst (Invoke h stub)) !! "abc" = Some (Itoa n) /\
     marbleIndex (fst (Invoke h stub)) = Some [] /\
     openTrades (fst (Invoke h stub)) = Some [] /\
     ownerIndex (fst (Invoke h stub)) = Some []) /\
  (length (args stub) <> 1%nat ->
     exists e, Invoke h stub = (stub, (None, Some e))) /\
  (forall a, args stub = [a] -> Atoi a = None ->
     exists e, Invoke h stub = (stub, (None, Some e))).
Proof.
  intros Hf.
  assert (Hi : Invoke h stub = Init stub).
  { apply (Invoke_init h stub (args stub)). cbn. rewrite Hf. reflexivity. }
  rewrite Hi. split; [|split].
  - intros a n Hl Ha. rewrite (Init_MockStub stub a n Hl Ha). cbn.
    unfold marbleIndex, openTrades, ownerIndex. cbn.
    repeat split; by simplify_map_eq.
  - intros Hl. eexists. apply Init_arity. exact Hl.
  - intros a Hl Ha. apply Init_not_integer. cbn. rewrite Hl. exact Ha.
Qed.

Lemma Invoke_init_resets_witness :
  State (fst (Invoke (marbles 0) (mkMockStub "init" ["42"] ∅))) !! "abc" =
    Some "42".
Proof.
  destruct (Invoke_init_resets (marbles 0) (mkMockStub "init" ["42"] ∅))
    as [Hok _]; [reflexivity |].
  destruct (Hok "42" 42) as (_ & _ & Habc & _); [reflexivity | reflexivity |].
  exact Habc.
Defined.

(** ** Argument validation *)

Lemma descriptions_Checked (l : list string) (ds : list Description.t) :
  descriptions l = Checked ds ->
  length l = (2 * length ds)%nat /\ forallb numeric (sizes l) = true.
Proof.
  revert l. induction ds as [|d ds IH]; intros l Hl.
  - destruct l as [|c [|s l']]; cbn in Hl; [done | done |].
    destruct (Atoi s); [|done]. destruct (descriptions l'); done.
  - destruct l as [|c [|s l']]; cbn in Hl; [done | done |].
    unfold numeric. cbn. destruct (Atoi s) eqn:Ha; [|done].
    destruct (descriptions l') as [ds'|] eqn:Hd; [|done].
    injection Hl as _ ->. destruct (IH l' Hd) as [Hlen Hnum].
    cbn. split; [lia | exact Hnum].
Qed.

(** C7. An operation called with an argument list its validation rejects
    - a wrong number of arguments, or a numeral missing where a number is
    expected - returns an error and the stub as it was, with nothing
    written: [read] with other than one argument and [write] with other
    than two among them. *)
Theorem invalid_arguments_write_nothing {Stub : Type}
    `{ChaincodeStubInterface Stub} (unixNano : Z) (op : operation)
    (stub : Stub) :
  valid_args op (snd (GetFunctionAndParameters stub)) = false ->
  exists e, operate unixNano op stub = (stub, (None, Some e)).
Proof.
  intros Hv. destruct op; cbn [valid_args operate] in Hv |- *.
  - apply andb_false_iff in Hv as [Hv|Hv].
    + eexists. apply Init_arity. by apply Nat.eqb_neq.
    + apply Init_not_integer. unfold numeric in Hv.
      by destruct (Atoi _).
  - eexists. apply read_arity. by apply Nat.eqb_neq.
  - eexists. apply write_arity. by apply Nat.eqb_neq.
  - unfold init_marble. apply andb_false_iff in Hv as [->|Hv]; [by eexists|].
    destruct (negb _); [by eexists|].
    unfold numeric in Hv. destruct (Atoi _); [done | by eexists].
  - unfold delete_marble. rewrite Hv. by eexists.
  - unfold set_owner. rewrite Hv. by eexists.
  - unfold open_trade.
    destruct (snd (GetFunctionAndParameters stub)) as [|user rest];
      [by eexists|].
    destruct (descriptions rest) as [[|want [|d willing]]|e] eqn:Hd;
      [by eexists | by eexists | | by eexists].
    destruct (descriptions_Checked _ _ Hd) as [Hlen Hnum].
    cbn [length tail] in Hv, Hlen. rewrite Hnum, Hlen in Hv.
    rewrite Nat.odd_succ, Nat.even_mul in Hv.
    replace (5 <=? _)%nat with true in Hv by (symmetry; apply Nat.leb_le; lia).
    discriminate Hv.
  - unfold perform_trade. apply andb_false_iff in Hv as [->|Hv]; [by eexists|].
    destruct (negb _); [by eexists|].
    unfold numeric in Hv. destruct (Atoi _); [done | by eexists].
  - unfold remove_trade. apply andb_false_iff in Hv as [->|Hv]; [by eexists|].
    destruct (negb _); [by eexists|].
    unfold numeric in Hv. destruct (Atoi _); [done | by eexists].
  - unfold init_owner. rewrite Hv. by eexists.
Qed.

Lemma invalid_arguments_write_nothing_witness :
  exists e,
    operate 0 OpWrite (mkMockStub "write" ["abc"] ∅) =
      (mkMockStub "write" ["abc"] ∅, (None, Some e)).
Proof.
  apply (invalid_arguments_write_nothing 0 OpWrite
           (mkMockStub "write" ["abc"] ∅)).
  reflexivity.
Defined.

(** ** strconv: [Itoa] and the numeral parser *)

Lemma parse_digits_acc (d : Decimal.uint) (acc : positive) :
  parse_digits (NilEmpty.string_of_uint d) (Z.pos acc) =
    Some (Z.pos (Pos.of_uint_acc d acc)).
Proof.
  revert acc. induction d; intros acc; cbn [NilEmpty.string_of_uint parse_digits];
    [reflexivity | ..];
    (change (digit_of _) with (Some 0) || change (digit_of _) with (Some 1) ||
     change (digit_of _) with (Some 2) || change (digit_of _) with (Some 3) ||
     change (digit_of _) with (Some 4) || change (digit_of _) with (Some 5) ||
     change (digit_of _) with (Some 6) || change (digit_of _) with (Some 7) ||
     change (digit_of _) with (Some 8) || change (digit_of _) with (Some 9));
    cbn [Pos.of_uint_acc]; rewrite <- IHd; f_equal; lia.
Qed.

Lemma parse_digits_uint (d : Decimal.uint) :
  parse_digits (NilEmpty.string_of_uint d) 0 = Some (Z.of_N (Pos.of_uint d)).
Proof.
  induction d; cbn [NilEmpty.string_of_uint parse_digits Pos.of_uint];
    [reflexivity | exact IHd | ..];
    (change (digit_of _) with (Some 1) ||
     change (digit_of _) with (Some 2) || change (digit_of _) with (Some 3) ||
     change (digit_of _) with (Some 4) || change (digit_of _) with (Some 5) ||
     change (digit_of _) with (Some 6) || change (digit_of _) with (Some 7) ||
     change (digit_of _) with (Some 8) || change (digit_of _) with (Some 9));
    cbn [Z.mul Z.add Z.of_N]; apply parse_digits_acc.
Qed.

Lemma string_of_uint_head (d : Decimal.uint) :
  d <> Decimal.Nil ->
  exists c s, NilEmpty.string_of_uint d = String c s /\
              Ascii.eqb c "-" = false /\ Ascii.eqb c "+" = false.
Proof.
  destruct d; [done | ..]; intros _; cbn; eauto.
Qed.

Lemma parse_int_Pos (p : positive) :
  parse_int (NilEmpty.string_of_uint (Pos.to_uint p)) = Some (Z.pos p).
Proof.
  destruct (string_of_uint_head (Pos.to_uint p)) as (c & s & Hs & Hm & Hp).
  { apply DecimalPos.Unsigned.to_uint_nonnil. }
  unfold parse_int. rewrite Hs, Hm, Hp. cbn [orb]. rewrite <- Hs.
  rewrite parse_digits_uint, DecimalPos.Unsigned.of_to. reflexivity.
Qed.

Lemma NilZero_string_of_uint_Pos (p : positive) :
  NilZero.string_of_uint (Pos.to_uint p) =
    NilEmpty.string_of_uint (Pos.to_uint p).
Proof.
  unfold NilZero.string_of_uint.
  destruct (Pos.to_uint p) eqn:E; try reflexivity.
  by apply DecimalPos.Unsigned.to_uint_nonnil in E.
Qed.

Lemma parse_int_Itoa (z : Z) : parse_int (Itoa z) = Some z.
Proof.
  destruct z as [|p|p]; unfold Itoa; cbn [Z.to_int NilZero.string_of_int].
  - reflexivity.
  - rewrite NilZero_string_of_uint_Pos. apply parse_int_Pos.
  - rewrite NilZero_string_of_uint_Pos.
    destruct (string_of_uint_head (Pos.to_uint p)) as (c & s & Hs & Hm & Hp).
    { apply DecimalPos.Unsigned.to_uint_nonnil. }
    unfold parse_int. cbn [Ascii.eqb Bool.eqb orb]. rewrite Hs, <- Hs.
    rewrite parse_digits_uint, DecimalPos.Unsigned.of_to. reflexivity.
Qed.

Lemma Atoi_Itoa (z : Z) : int_in_range z = true -> Atoi (Itoa z) = Some z.
Proof. intros Hr. unfold Atoi. rewrite parse_int_Itoa, Hr. reflexivity. Qed.

(** ** encoding/json: decoding what was encoded *)

Lemma append_assoc (a b c : string) : (a +:+ b) +:+ c = a +:+ (b +:+ c).
Proof. induction a as [|x a IH]; [reflexivity | exact (f_equal (String x) IH)]. Qed.

Lemma append_nil_r (a : string) : a +:+ EmptyString = a.
Proof. induction a as [|x a IH]; [reflexivity | exact (f_equal (String x) IH)]. Qed.

Lemma append_nil_l (a : string) : EmptyString +:+ a = a.
Proof. reflexivity. Qed.

Lemma length_append (a b : string) :
  String.length (a +:+ b) = (String.length a + String.length b)%nat.
Proof.
  induction a as [|x a IH]; [reflexivity | exact (f_equal S IH)].
Qed.

Ltac flat := repeat (progress (simpl; rewrite ?append_assoc, ?append_nil_l)).

Lemma lit_append (p r : string) : lit p (p +:+ r) = Some r.
Proof.
  induction p as [|c p IH]; simpl; [reflexivity|].
  by rewrite Ascii.eqb_refl.
Qed.

Lemma unescape_escape (s r : string) :
  unescape (json_escape s +:+ String dquote r) = Some (s, r).
Proof.
  induction s as [|c s IH]; simpl; [reflexivity|].
  destruct (Ascii.eqb c dquote) eqn:Hq;
    destruct (Ascii.eqb c backslash) eqn:Hb; simpl;
    rewrite ?Hq, ?Hb; simpl; rewrite ?IH; reflexivity.
Qed.

Lemma parse_string_json_string (s r : string) :
  parse_string (json_string s +:+ r) = Some (s, r).
Proof.
  unfold json_string, quoted. simpl.
  rewrite append_assoc. apply unescape_escape.
Qed.

Lemma string_of_uint_number_bytes (d : Decimal.uint) (c : ascii) (r : string) :
  is_number_byte c = false ->
  span_number (NilEmpty.string_of_uint d +:+ String c r) =
    (NilEmpty.string_of_uint d, String c r).
Proof.
  intros Hc.
  induction d; simpl; [by rewrite Hc | ..]; rewrite IHd; reflexivity.
Qed.

Lemma span_number_Itoa (z : Z) (c : ascii) (r : string) :
  is_number_byte c = false ->
  span_number (Itoa z +:+ String c r) = (Itoa z, String c r).
Proof.
  intros Hc. destruct z as [|p|p]; unfold Itoa;
    cbn [Z.to_int NilZero.string_of_int].
  - simpl. by rewrite Hc.
  - rewrite NilZero_string_of_uint_Pos. by apply string_of_uint_number_bytes.
  - rewrite NilZero_string_of_uint_Pos. simpl.
    by rewrite string_of_uint_number_bytes.
Qed.

Lemma parse_number_Itoa (z : Z) (c : ascii) (r : string) :
  is_number_byte c = false ->
  parse_number (Itoa z +:+ String c r) = Some (z, String c r).
Proof.
  intros Hc. unfold parse_number. rewrite span_number_Itoa by done.
  rewrite parse_int_Itoa. reflexivity.
Qed.

Section Slices.
Context {A : Type} (enc : A -> string) (elem : string -> option (A * string)).
Hypothesis elem_enc : forall x r, elem (enc x +:+ r) = Some (x, r).

Lemma parse_more_json_more (l : list A) (r : string) (fuel : nat) :
  (length l < fuel)%nat ->
  parse_more elem fuel (json_more enc l +:+ r) = Some (l, r).
Proof.
  revert fuel. induction l as [|x l IH]; intros fuel Hf;
    (destruct fuel as [|fuel]; [lia|]).
  - reflexivity.
  - flat. rewrite elem_enc. simpl. rewrite IH by (simpl in Hf; lia).
    reflexivity.
Qed.

Lemma json_more_length (l : list A) (r : string) :
  (length l < String.length (json_more enc l +:+ r))%nat.
Proof.
  induction l as [|x l IH]; flat; [lia|].
  rewrite length_append. lia.
Qed.

Lemma parse_slice_json_slice (l : list A) (r : string) :
  parse_slice elem (json_slice enc l +:+ r) = Some (l, r).
Proof.
  unfold parse_slice. destruct l as [|x l]; [reflexivity|].
  flat. rewrite elem_enc. simpl.
  rewrite parse_more_json_more by apply json_more_length. reflexivity.
Qed.

End Slices.

Lemma parse_number_comma (z : Z) (r : string) :
  parse_number (Itoa z +:+ "," +:+ r) = Some (z, "," +:+ r).
Proof. exact (parse_number_Itoa z "," r eq_refl). Qed.

Lemma parse_number_brace (z : Z) (r : string) :
  parse_number (Itoa z +:+ "}" +:+ r) = Some (z, "}" +:+ r).
Proof. exact (parse_number_Itoa z "}" r eq_refl). Qed.

#[local] Opaque json_string Itoa json_slice.

Ltac decode_step :=
  first
    [ rewrite parse_string_json_string
    | rewrite parse_number_comma
    | rewrite parse_number_brace
    | rewrite (parse_slice_json_slice json_string parse_string
                 parse_string_json_string) ].

Ltac decode := unfold json_key, quoted; repeat (flat; try decode_step).


Lemma parse_Marshal_OwnersIndex (v : OwnersIndex.t) (r : string) :
  parse_OwnersIndex (json_Marshal_OwnersIndex v +:+ r) = Some (v, r).
Proof.
  destruct v. unfold parse_OwnersIndex, json_Marshal_OwnersIndex.
  decode. reflexivity.
Qed.


Lemma parse_Marshal_Owner (v : Owner.t) (r : string) :
  parse_Owner (json_Marshal_Owner v +:+ r) = Some (v, r).
Proof.
  destruct v. unfold parse_Owner, json_Marshal_Owner.
  decode. reflexivity.
Qed.

Lemma parse_Marshal_Description (v : Description.t) (r : string) :
  parse_Description (json_Marshal_Description v +:+ r) = Some (v, r).
Proof.
  destruct v. unfold parse_Description, json_Marshal_Description.
  decode. reflexivity.
Qed.

#[local] Opaque json_Marshal_Description.

Lemma parse_Marshal_AnOpenTrade (v : AnOpenTrade.t) (r : string) :
  parse_AnOpenTrade (json_Marshal_AnOpenTrade v +:+ r) = Some (v, r).
Proof.
  destruct v. unfold parse_AnOpenTrade, json_Marshal_AnOpenTrade.
  decode. rewrite parse_Marshal_Description. flat.
  rewrite (parse_slice_json_slice json_Marshal_Description parse_Description
             parse_Marshal_Description).
  reflexivity.
Qed.

#[local] Opaque json_Marshal_AnOpenTrade.

Lemma parse_Marshal_AllTrades (v : AllTrades.t) (r : string) :
  parse_AllTrades (json_Marshal_AllTrades v +:+ r) = Some (v, r).
Proof.
  destruct v. unfold parse_AllTrades, json_Marshal_AllTrades.
  decode.
  rewrite (parse_slice_json_slice json_Marshal_AnOpenTrade parse_AnOpenTrade
             parse_Marshal_AnOpenTrade).
  reflexivity.
Qed.

Lemma whole_parse {A : Type} (parse : string -> option (A * string))
    (enc : A -> string) (v : A) :
  (forall r, parse (enc v +:+ r) = Some (v, r)) ->
  whole (parse (enc v)) = Some v.
Proof.
  intros Hp. rewrite <- (append_nil_r (enc v)), Hp. reflexivity.
Qed.



Lemma Unmarshal_Marshal_AllTrades (v : AllTrades.t) :
  json_Unmarshal_AllTrades (json_Marshal_AllTrades v) = Some v.
Proof. apply whole_parse, parse_Marshal_AllTrades. Qed.

Lemma Unmarshal_Marshal_OwnersIndex (v : OwnersIndex.t) :
  json_Unmarshal_OwnersIndex (json_Marshal_OwnersIndex v) = Some v.
Proof. apply whole_parse, parse_Marshal_OwnersIndex. Qed.

Lemma Unmarshal_Marshal_Owner (v : Owner.t) :
  json_Unmarshal_Owner (json_Marshal_Owner v) = Some v.
Proof. apply whole_parse, parse_Marshal_Owner. Qed.

(** A document of one kind does not decode as one of another kind: the
    field after [docType] tells them apart. *)

Lemma lit_Some (p s r : string) : lit p s = Some r -> s = p +:+ r.
Proof.
  revert s. induction p as [|c p IH]; intros s; simpl.
  - by intros [= ->].
  - destruct s as [|d s]; [done|].
    destruct (Ascii.eqb_spec c d) as [->|]; [|done].
    intros Hl. by rewrite (IH s Hl).
Qed.


Lemma Marble_is_no_AllTrades (b : bytes) :
  is_Some (json_Unmarshal_AllTrades b) -> json_Unmarshal_Marble b = None.
Proof.
  unfold json_Unmarshal_AllTrades, json_Unmarshal_Marble,
    parse_AllTrades, parse_Marble.
  destruct (lit _ b) as [s1|]; cbn [mbind option_bind whole];
    [|by intros [? ?]].
  destruct (parse_string s1) as [[docType s2]|]; cbn [mbind option_bind whole];
    [|by intros [? ?]].
  destruct (lit _ s2) as [s3|] eqn:Hl; cbn [mbind option_bind whole];
    [|by intros [? ?]].
  apply lit_Some in Hl as ->. intros _. reflexivity.
Qed.

#[local] Transparent Itoa.

Lemma Itoa_is_no_Marble (n : Z) : json_Unmarshal_Marble (Itoa n) = None.
Proof.
  assert (Hhead : exists c s, Itoa n = String c s /\ Ascii.eqb "{" c = false).
  { destruct n as [|p|p]; unfold Itoa; cbn [Z.to_int NilZero.string_of_int].
    - by eexists _, _.
    - rewrite NilZero_string_of_uint_Pos.
      destruct (Pos.to_uint p) eqn:E;
        [by apply DecimalPos.Unsigned.to_uint_nonnil in E | ..];
        by eexists _, _.
    - by eexists _, _. }
  destruct Hhead as (c & s & -> & Hc).
  unfold json_Unmarshal_Marble, parse_Marble.
  change ("{" +:+ json_key "docType") with (String "{" (json_key "docType")).
  cbn [lit]. rewrite Hc. reflexivity.
Qed.

#[local] Opaque Itoa.

(** ** The marble index under [createMarble] and [deleteMarble] *)







Lemma Init_succeeds (stub stub' : MockStub) :
  Init stub = (stub', (None, None)) ->
  exists a n, args stub = [a] /\ Atoi a = Some n.
Proof.
  unfold Init. cbn [GetFunctionAndParameters MockStub_interface].
  destruct (args stub) as [|a [|a' l]]; simpl; try discriminate.
  destruct (Atoi a) as [n|] eqn:Ha; [eauto | discriminate].
Qed.

Lemma initialized_index_consistent (stub : MockStub) :
  initialized stub -> index_consistent stub.
Proof.
  intros (stub0 & Hnone & Hinit).
  destruct (Init_succeeds _ _ Hinit) as (a & n & Hl & Ha).
  rewrite (Init_MockStub stub0 a n Hl Ha) in Hinit.
  injection Hinit as <-.
  exists []. split; [|split].
  - unfold marbleIndex. cbn [State with_State]. by simplify_map_eq.
  - constructor.
  - intros key. split; [by intros ?%elem_of_nil|].
    unfold isLive. cbn [State with_State].
    destruct (decide (key = ownerIndexStr)) as [->|?].
    { rewrite lookup_insert_eq. intros [m Hm]. vm_compute in Hm.
      discriminate Hm. }
    rewrite lookup_insert_ne by done.
    destruct (decide (key = openTradesStr)) as [->|?].
    { rewrite lookup_insert_eq. intros [m Hm]. vm_compute in Hm.
      discriminate Hm. }
    rewrite lookup_insert_ne by done.
    destruct (decide (key = marbleIndexStr)) as [->|?].
    { rewrite lookup_insert_eq. intros [m Hm]. vm_compute in Hm.
      discriminate Hm. }
    rewrite lookup_insert_ne by done.
    destruct (decide (key = "abc")) as [->|?].
    + rewrite lookup_insert_eq. unfold liveMarble. cbn [mbind option_bind].
      rewrite Itoa_is_no_Marble. by intros [? ?].
    + rewrite lookup_insert_ne by done. intros Hlive.
      apply Hnone in Hlive. unfold reset_keys in Hlive.
      rewrite !elem_of_cons in Hlive.
      destruct Hlive as [?|[?|[?|[?|Hnil]]]];
        first [done | by apply elem_of_nil in Hnil].
Qed.






(** ** The trade engine *)



Lemma readTrades_MockStub (stub : MockStub) :
  readTrades stub =
    match State stub !! openTradesStr ≫= json_Unmarshal_AllTrades with
    | Some trades => Checked trades
    | None => Failed StoreError
    end.
Proof. reflexivity. Qed.



(** C6. [openTrade] with an empty [willing] fails, whoever the user and
    whatever is wanted, before anything is read or written: the stub comes
    back as it was, so no trade entry is appended. From the argument list,
    [open_trade] without a description to give fails in the same way. *)
Theorem openTrade_empty_willing_fails :
  (forall (Stub : Type) (I : ChaincodeStubInterface Stub) (now : Z)
          (stub : Stub) (user : string) (want : Description.t),
     openTrade now stub user want [] = (stub, (None, Some ArgumentCountError))) /\
  (forall (Stub : Type) (I : ChaincodeStubInterface Stub) (unixNano : Z)
          (stub : Stub) (user color size : string),
     exists e,
       open_trade unixNano stub [user; color; size] = (stub, (None, Some e))).
Proof.
  split.
  - reflexivity.
  - intros Stub I unixNano stub user color size.
    unfold open_trade. cbn [descriptions].
    destruct (Atoi size); by eexists.
Qed.

(** *** [cleanTrades] *)

Section Frame.
Variables stub stub' : MockStub.
Hypothesis same_marbles :
  forall key, liveMarble (State stub' !! key) key = liveMarble (State stub !! key) key.
Hypothesis same_index :
  State stub' !! marbleIndexStr = State stub !! marbleIndexStr.

Lemma firstOffered_frame (user : string) (willing : list Description.t)
    (names : list string) :
  firstOffered stub' user willing names = firstOffered stub user willing names.
Proof.
  induction names as [|name names IH]; [reflexivity|].
  cbn [firstOffered GetState MockStub_interface].
  rewrite same_marbles, IH. reflexivity.
Qed.

Lemma findOffered_frame (user : string) (willing : list Description.t) :
  findOffered stub' user willing = findOffered stub user willing.
Proof.
  unfold findOffered. cbn [GetState MockStub_interface]. rewrite same_index.
  destruct (State stub !! marbleIndexStr ≫= json_Unmarshal_MarblesIndex);
    [apply firstOffered_frame | reflexivity].
Qed.

Lemma pruneTrades_frame (ts : list AnOpenTrade.t) :
  pruneTrades stub' ts = pruneTrades stub ts.
Proof.
  induction ts as [|trade ts IH]; [reflexivity|].
  cbn [pruneTrades]. rewrite findOffered_frame, IH. reflexivity.
Qed.

End Frame.

Lemma pruneTrades_kept (stub : MockStub) (ts kept : list AnOpenTrade.t) :
  pruneTrades stub ts = Checked kept -> pruneTrades stub kept = Checked kept.
Proof.
  revert kept. induction ts as [|trade ts IH]; intros kept; cbn [pruneTrades].
  - by intros [= <-].
  - destruct (findOffered stub (AnOpenTrade.User trade)
                (AnOpenTrade.Willing trade)) as [found|] eqn:Hf; [|done].
    destruct (pruneTrades stub ts) as [kept'|]; [|done].
    intros [= <-]. destruct found as [offered|]; [|by apply IH].
    cbn [pruneTrades]. rewrite Hf, (IH kept' eq_refl). reflexivity.
Qed.

Lemma trades_key_not_live (b : bytes) :
  is_Some (json_Unmarshal_AllTrades b) ->
  liveMarble (Some b) openTradesStr = None.
Proof.
  intros Hb. unfold liveMarble. cbn [mbind option_bind].
  by rewrite Marble_is_no_AllTrades.
Qed.

Lemma cleanTrades_MockStub (stub : MockStub) :
  cleanTrades stub =
    match State stub !! openTradesStr ≫= json_Unmarshal_AllTrades with
    | None => (stub, Some StoreError)
    | Some trades =>
        match pruneTrades stub (AllTrades.OpenTrades trades) with
        | Failed e => (stub, Some e)
        | Checked kept =>
            (with_State stub
               (<[openTradesStr :=
                    json_Marshal_AllTrades
                      (AllTrades.mk (AllTrades.ObjectType trades) kept)]>
                  (State stub)),
             None)
        end
    end.
Proof.
  unfold cleanTrades. rewrite readTrades_MockStub.
  destruct (State stub !! openTradesStr ≫= json_Unmarshal_AllTrades);
    reflexivity.
Qed.

(** C4. Running [cleanTrades] a second time changes nothing: the ledger,
    and with it the open-trades document, is what the first run left. *)
Theorem cleanTrades_idempotent (stub : MockStub) :
  fst (cleanTrades (fst (cleanTrades stub))) = fst (cleanTrades stub) /\
  openTrades (fst (cleanTrades (fst (cleanTrades stub)))) =
    openTrades (fst (cleanTrades stub)).
Proof.
  assert (Hstub : fst (cleanTrades (fst (cleanTrades stub))) =
                  fst (cleanTrades stub)); [|by rewrite Hstub].
  rewrite (cleanTrades_MockStub stub).
  destruct (State stub !! openTradesStr ≫= json_Unmarshal_AllTrades)
    as [trades|] eqn:Hdoc.
  2: { cbn [fst]. rewrite cleanTrades_MockStub, Hdoc. reflexivity. }
  destruct (pruneTrades stub (AllTrades.OpenTrades trades)) as [kept|e] eqn:Hp.
  2: { cbn [fst]. rewrite cleanTrades_MockStub, Hdoc, Hp. reflexivity. }
  cbn [fst]. rewrite cleanTrades_MockStub. cbn [State with_State].
  rewrite lookup_insert_eq. cbn [mbind option_bind].
  rewrite Unmarshal_Marshal_AllTrades. cbn [AllTrades.OpenTrades AllTrades.ObjectType].
  rewrite pruneTrades_frame with (stub := stub).
  - rewrite (pruneTrades_kept _ _ _ Hp). cbn [fst with_State function args State].
    by rewrite insert_insert_eq.
  - intros key. cbn [State with_State].
    destruct (decide (key = openTradesStr)) as [->|Hk].
    + rewrite lookup_insert_eq.
      destruct (State stub !! openTradesStr) as [b|] eqn:Hb; [|done].
      rewrite !trades_key_not_live; [done | | ].
      * cbn [mbind option_bind] in Hdoc. rewrite Hdoc. eauto.
      * rewrite Unmarshal_Marshal_AllTrades. eauto.
    + by rewrite lookup_insert_ne.
  - cbn [State with_State]. by rewrite lookup_insert_ne.
Qed.

(** ** The scenarios of the specification, run *)

Example Init_documents :
  State (fst (Init fresh_ledger)) !! marbleIndexStr =
    Some ("{" +:+ quoted "docType" +:+ ":" +:+ quoted "MarbleIndex" +:+ "," +:+
          quoted "marbles" +:+ ":null}") /\
  State (fst (Init fresh_ledger)) !! openTradesStr =
    Some ("{" +:+ quoted "docType" +:+ ":" +:+ quoted "Trades" +:+ "," +:+
          quoted "open_trades" +:+ ":null}") /\
  State (fst (Init fresh_ledger)) !! ownerIndexStr =
    Some ("{" +:+ quoted "docType" +:+ ":" +:+ quoted "OwnerIndex" +:+ "," +:+
          quoted "owners" +:+ ":null}") /\
  State (fst (Init fresh_ledger)) !! "abc" = Some "0".
Proof. vm_compute. auto. Qed.

Example performTrade_swaps_owners :
  let stub := fst (performTrade trading_ledger 0 "bob" "m2") in
  snd (performTrade trading_ledger 0 "bob" "m2") = (None, None) /\
  (Marble.Owner <$> liveMarble (State stub !! "m2") "m2") = Some "alice" /\
  (Marble.Owner <$> liveMarble (State stub !! "m1") "m1") = Some "bob" /\
  openTrades stub = Some [].
Proof. vm_compute. auto. Qed.

Example cleanTrades_prunes_stale_trade :
  (length <$> openTrades stale_ledger) = Some 1%nat /\
  openTrades (fst (cleanTrades stale_ledger)) = Some [].
Proof. vm_compute. auto. Qed.

Example performTrade_nothing_to_give :
  performTrade stale_ledger 0 "bob" "m2" =
    (stale_ledger, (None, Some NoMatchError)).
Proof. vm_compute. reflexivity. Qed.

Example performTrade_without_an_index :
  marbleIndex unindexed_ledger = None /\
  performTrade unindexed_ledger 0 "bob" "m2" =
    (unindexed_ledger, (None, Some NoMatchError)).
Proof. vm_compute. auto. Qed.

Example write_bypasses_the_index :
  index_consistent (fst (Init fresh_ledger)) /\
  ~ index_consistent
      (fst (write (fst (Init fresh_ledger)) [marbleIndexStr; "oops"])).
Proof.
  split.
  - apply initialized_index_consistent. exists fresh_ledger.
    split; [|reflexivity]. intros key [m Hm]. discriminate Hm.
  - intros (names & Hidx & _). vm_compute in Hidx. discriminate Hidx.
Qed.

Example Atoi_examples :
  Atoi "42" = Some 42 /\ Atoi "-7" = Some (-7) /\ Atoi "+5" = Some 5 /\
  Atoi "007" = Some 7 /\ Atoi EmptyString = None /\ Atoi "4x" = None /\
  Atoi "9223372036854775807" = Some 9223372036854775807 /\
  Atoi "9223372036854775808" = None.
Proof. vm_compute. auto 10. Qed.

(** * Further properties of [marbles.go] *)

(** ** Invoke *)

(** X1. A function name [Invoke] does not know is answered with the
    unknown-function error, which quotes the name, and the stub as it was:
    no handler and no [cleanTrades] runs. *)
Theorem Invoke_unknown_function {Stub : Type} `{ChaincodeStubInterface Stub}
    (h : Handlers.t Stub) (stub : Stub) (f : string) (l : list string) :
  GetFunctionAndParameters stub = (f, l) ->
  f ∉ known_functions ->
  Invoke h stub =
    (stub, (None, Some (errors_New
       ("Received unknown invoke function name: '" +:+ f +:+ "'")))).
Proof.
  intros Hfa Hf. unfold Invoke. rewrite Hfa.
  unfold known_functions in Hf. rewrite !not_elem_of_cons in Hf.
  repeat match goal with
  | |- context [String.eqb f ?name] =>
      destruct (String.eqb_spec f name) as [E|_]; [exfalso; tauto|]
  end.
  reflexivity.
Qed.

Lemma Invoke_unknown_function_witness :
  Invoke (marbles 0) (mkMockStub "query" ["abc"] ∅) =
    (mkMockStub "query" ["abc"] ∅,
     (None, Some "Received unknown invoke function name: 'query'")).
Proof.
  apply (Invoke_unknown_function (marbles 0) (mkMockStub "query" ["abc"] ∅)
           "query" ["abc"]).
  - reflexivity.
  - unfold known_functions. rewrite !not_elem_of_cons.
    repeat split; try discriminate. apply not_elem_of_nil.
Defined.

(** X2. An invocation of [init], [read] or [write] does not depend on the
    handler table: these three are decided by [marbles.go] alone, and none
    of them runs [cleanTrades]. *)
Theorem Invoke_own_functions_ignore_table {Stub : Type}
    `{ChaincodeStubInterface Stub} (h h' : Handlers.t Stub) (stub : Stub)
    (f : string) (l : list string) :
  GetFunctionAndParameters stub = (f, l) ->
  f ∈ ["init"; "read"; "write"] ->
  Invoke h stub = Invoke h' stub.
Proof.
  intros Hfa Hf. unfold Invoke. rewrite Hfa.
  rewrite !elem_of_cons in Hf.
  destruct Hf as [->|[->|[->|Hf]]]; [reflexivity .. |].
  by apply elem_of_nil in Hf.
Qed.

Lemma Invoke_own_functions_ignore_table_witness :
  Invoke (marbles 0) (mkMockStub "write" ["k"; "v"] ∅) =
  Invoke (with_cleanTrades (marbles 0) (fun stub => (fresh_ledger, None)))
    (mkMockStub "write" ["k"; "v"] ∅).
Proof.
  apply (Invoke_own_functions_ignore_table _ _ _ "write" ["k"; "v"]).
  - reflexivity.
  - rewrite !elem_of_cons. auto.
Defined.

Lemma read_leaves_stub {Stub : Type} `{ChaincodeStubInterface Stub}
    (stub : Stub) (l : list string) : fst (read stub l) = stub.
Proof.
  unfold read. destruct (negb _); [reflexivity|].
  destruct (GetState stub _) as [v [e|]]; reflexivity.
Qed.

(** X3. An invocation of [read] is a query: whatever the arguments,
    whatever the handler table and whether or not [GetState] fails, the
    stub comes back as it was. *)
Theorem Invoke_read_leaves_stub {Stub : Type} `{ChaincodeStubInterface Stub}
    (h : Handlers.t Stub) (stub : Stub) (l : list string) :
  GetFunctionAndParameters stub = ("read", l) ->
  fst (Invoke h stub) = stub.
Proof.
  intros Hfa. unfold Invoke. rewrite Hfa. cbn. apply read_leaves_stub.
Qed.

Lemma Invoke_read_leaves_stub_witness :
  fst (Invoke (marbles 0) (mkMockStub "read" ["m1"] (State trading_ledger))) =
    mkMockStub "read" ["m1"] (State trading_ledger).
Proof.
  apply (Invoke_read_leaves_stub (marbles 0) _ ["m1"]). reflexivity.
Defined.

(** X4. What [write] stored, [read] returns: after an invocation of [write]
    with a key and a value, an invocation of [read] with the key returns
    exactly the value and no error. *)
Theorem Invoke_write_then_read (h h' : Handlers.t MockStub) (stub : MockStub)
    (key value : string) :
  function stub = "write" ->
  args stub = [key; value] ->
  snd (Invoke h' (mkMockStub "read" [key] (State (fst (Invoke h stub))))) =
    (Some value, None).
Proof.
  intros Hf Ha.
  assert (Hw : Invoke h stub = write stub [key; value]).
  { unfold Invoke. cbn [GetFunctionAndParameters MockStub_interface].
    rewrite Hf, Ha. reflexivity. }
  rewrite Hw. unfold Invoke. cbn [GetFunctionAndParameters MockStub_interface
    function args]. cbn [String.eqb]. cbn.
  rewrite lookup_insert_eq. reflexivity.
Qed.

Lemma Invoke_write_then_read_witness :
  snd (Invoke (marbles 0)
         (mkMockStub "read" ["k"]
            (State (fst (Invoke (marbles 0) (mkMockStub "write" ["k"; "v"] ∅)))))) =
    (Some "v", None).
Proof.
  apply (Invoke_write_then_read (marbles 0) (marbles 0)
           (mkMockStub "write" ["k"; "v"] ∅) "k" "v"); reflexivity.
Defined.

(** ** write *)

(** X5. The last [write] to a key wins: writing one value and then another
    under the same key leaves the ledger as the second write alone does. *)
Theorem write_last_wins (stub : MockStub) (key v1 v2 : string) :
  State (fst (write (fst (write stub [key; v1])) [key; v2])) =
    State (fst (write stub [key; v2])).
Proof. cbn. apply insert_insert_eq. Qed.

(** X6. Writes to different keys do not interfere: in either order they
    leave the same ledger. *)
Theorem write_distinct_keys_commute (stub : MockStub) (k1 v1 k2 v2 : string) :
  k1 <> k2 ->
  State (fst (write (fst (write stub [k1; v1])) [k2; v2])) =
    State (fst (write (fst (write stub [k2; v2])) [k1; v1])).
Proof. intros Hk. cbn. by apply insert_insert_ne. Qed.

Lemma write_distinct_keys_commute_witness :
  State (fst (write (fst (write fresh_ledger ["a"; "1"])) ["b"; "2"])) =
    State (fst (write (fst (write fresh_ledger ["b"; "2"])) ["a"; "1"])).
Proof.
  apply (write_distinct_keys_commute fresh_ledger "a" "1" "b" "2").
  discriminate.
Defined.

(** ** Results and errors *)

Lemma or_return_payload {Stub : Type} (c : Stub * option error)
    (k : Stub -> Stub * result) :
  (forall stub, fst (snd (k stub)) = None) ->
  fst (snd (or_return c k)) = None.
Proof. intros Hk. destruct c as [stub [e|]]; [reflexivity | apply Hk]. Qed.

(** X7. No function of [marbles.go] returns bytes together with an error:
    [write] and [Init] never return bytes at all, and [read] returns bytes
    only with a [nil] error. This holds on every path, a failing [GetState]
    or [PutState] included. *)
Theorem no_bytes_with_an_error {Stub : Type} `{ChaincodeStubInterface Stub}
    (stub : Stub) (l : list string) :
  (fst (snd (read stub l)) = None \/ snd (snd (read stub l)) = None) /\
  fst (snd (write stub l)) = None /\
  fst (snd (Init stub)) = None.
Proof.
  split; [|split].
  - unfold read. destruct (negb _); [by left|].
    destruct (GetState stub _) as [v [e|]]; [by left | by right].
  - unfold write. destruct (negb _); [reflexivity|].
    by apply or_return_payload.
  - unfold Init. destruct (GetFunctionAndParameters stub) as [f a].
    destruct (negb _); [reflexivity|]. destruct (Atoi _); [|reflexivity].
    repeat (apply or_return_payload; intros ?). reflexivity.
Qed.

(** X8. On the ledger, [read] succeeds exactly when it is given one
    argument and [write] exactly when it is given two: a wrong argument
    count is their only failure. *)
Theorem read_write_fail_only_on_arity (stub : MockStub) (l : list string) :
  (snd (snd (read stub l)) = None <-> length l = 1%nat) /\
  (snd (snd (write stub l)) = None <-> length l = 2%nat).
Proof.
  split.
  - unfold read. destruct (Nat.eqb_spec (length l) 1) as [E|E]; cbn; [done|].
    split; [discriminate | done].
  - unfold write. destruct (Nat.eqb_spec (length l) 2) as [E|E]; cbn; [done|].
    split; [discriminate | done].
Qed.

(** ** Init *)

(** X9. On the ledger, [Init] succeeds exactly when the invocation carries
    one argument and [strconv.Atoi] reads it as an integer. *)
Theorem Init_succeeds_iff (stub : MockStub) :
  snd (snd (Init stub)) = None <->
  exists a n, args stub = [a] /\ Atoi a = Some n.
Proof.
  split.
  - unfold Init. cbn [GetFunctionAndParameters MockStub_interface].
    destruct (args stub) as [|a [|a' l]]; simpl; try discriminate.
    destruct (Atoi a) as [n|] eqn:Ha; [eauto | discriminate].
  - intros (a & n & Hl & Ha). by rewrite (Init_MockStub stub a n Hl Ha).
Qed.

(** X10. [Init] is idempotent: initialising a ledger twice with the same
    invocation leaves it as initialising it once does. *)
Theorem Init_idempotent (stub : MockStub) :
  fst (Init (fst (Init stub))) = fst (Init stub).
Proof.
  destruct (snd (snd (Init stub))) as [e|] eqn:Herr.
  - assert (Hsame : fst (Init stub) = stub); [|by rewrite Hsame].
    revert Herr. unfold Init.
    cbn [GetFunctionAndParameters MockStub_interface].
    destruct (negb _); [reflexivity|]. destruct (Atoi _); [|reflexivity].
    discriminate.
  - apply Init_succeeds_iff in Herr as (a & n & Hl & Ha).
    rewrite (Init_MockStub stub a n Hl Ha). cbn [fst].
    rewrite (Init_MockStub _ a n) by done. cbn [fst State with_State].
    unfold with_State. cbn [function args]. f_equal.
    apply map_eq. intros key. rewrite !lookup_insert.
    repeat case_decide; reflexivity.
Qed.

Lemma Atoi_in_range (s : string) (n : Z) :
  Atoi s = Some n -> int_in_range n = true.
Proof.
  unfold Atoi. destruct (parse_int s) as [m|]; [|done].
  destruct (int_in_range m) eqn:Hr; [|done]. by intros [= <-].
Qed.

(** X11. The integer [Init] was given can be read back: after a successful
    [Init] with argument [a] standing for [n], [read] of ["abc"] returns a
    numeral that [strconv.Atoi] reads as [n] again, however [a] itself was
    spelled. *)
Theorem Init_value_reads_back (stub : MockStub) (a : string) (n : Z) :
  args stub = [a] -> Atoi a = Some n ->
  exists s,
    snd (read (fst (Init stub)) ["abc"]) = (Some s, None) /\ Atoi s = Some n.
Proof.
  intros Hl Ha. exists (Itoa n). split.
  - rewrite (Init_MockStub stub a n Hl Ha). cbn. by simplify_map_eq.
  - apply Atoi_Itoa. by apply Atoi_in_range with a.
Qed.

Lemma Init_value_reads_back_witness :
  exists s,
    snd (read (fst (Init (mkMockStub "init" ["+007"] ∅))) ["abc"]) =
      (Some s, None) /\ Atoi s = Some 7.
Proof.
  apply (Init_value_reads_back (mkMockStub "init" ["+007"] ∅) "+007" 7);
    reflexivity.
Defined.

(** X12. [Init] forgets what was under the keys it writes: two ledgers that
    agree on every other key are the same ledger after a successful [Init]
    with the same argument. *)
Theorem Init_forgets_reset_keys (stub1 stub2 : MockStub) (a : string) (n : Z) :
  args stub1 = [a] -> args stub2 = [a] -> Atoi a = Some n ->
  (forall key, key ∉ reset_keys -> State stub1 !! key = State stub2 !! key) ->
  State (fst (Init stub1)) = State (fst (Init stub2)).
Proof.
  intros Hl1 Hl2 Ha Hsame.
  rewrite (Init_MockStub stub1 a n Hl1 Ha), (Init_MockStub stub2 a n Hl2 Ha).
  cbn [fst State with_State]. apply map_eq. intros key.
  rewrite !lookup_insert. repeat case_decide; try reflexivity.
  apply Hsame. unfold reset_keys. rewrite !not_elem_of_cons.
  repeat split; try congruence. apply not_elem_of_nil.
Qed.

Lemma Init_forgets_reset_keys_witness :
  State (fst (Init (mkMockStub "init" ["1"] {[ "abc" := "old" ]}))) =
  State (fst (Init (mkMockStub "init" ["1"] {[ marbleIndexStr := "junk" ]}))).
Proof.
  apply (Init_forgets_reset_keys _ _ "1" 1); try reflexivity.
  intros key Hkey. unfold reset_keys in Hkey. rewrite !not_elem_of_cons in Hkey.
  destruct Hkey as (H1 & H2 & _). cbn [State].
  rewrite !lookup_singleton_ne by congruence. reflexivity.
Defined.

(** X13. [Init] is not all-or-nothing: when the ledger takes the write of
    ["abc"] and refuses the one of the marble index, [Init] returns that
    error with the stub the refused write left, and writes nothing after
    it; the new value of ["abc"] stays. *)
Theorem Init_stops_at_refused_index {Stub : Type} `{ChaincodeStubInterface Stub}
    (stub stub1 stub2 : Stub) (f a : string) (n : Z) (e : error) :
  GetFunctionAndParameters stub = (f, [a]) ->
  Atoi a = Some n ->
  PutState stub "abc" (Itoa n) = (stub1, None) ->
  PutState stub1 marbleIndexStr
    (json_Marshal_MarblesIndex (MarblesIndex.mk "MarbleIndex" [])) =
    (stub2, Some e) ->
  Init stub = (stub2, (None, Some e)).
Proof.
  intros Hfa Ha Hput1 Hput2. unfold Init. rewrite Hfa. cbn [length Nat.eqb negb nth].
  rewrite Ha, Hput1. cbn [or_return]. rewrite Hput2. reflexivity.
Qed.

Lemma Init_stops_at_refused_index_witness :
  snd (Init index_refusing_ledger) = (None, Some "ledger unavailable") /\
  State (ledger (fst (Init index_refusing_ledger))) = {[ "abc" := "0" ]}.
Proof.
  assert (Hinit : Init index_refusing_ledger =
            (mkFaultyStub (with_State fresh_ledger {[ "abc" := "0" ]})
               (refused index_refusing_ledger),
             (None, Some "ledger unavailable"))).
  { apply (Init_stops_at_refused_index index_refusing_ledger
             (mkFaultyStub (with_State fresh_ledger {[ "abc" := "0" ]})
                (refused index_refusing_ledger))
             _ "init" "0" 0); reflexivity. }
  rewrite Hinit. split; reflexivity.
Defined.

(** ** makeTimestamp *)

(** X14. [makeTimestamp] turns the clock's nanoseconds into whole
    milliseconds, rounding down: for a clock at or after the epoch the
    result is at most one millisecond behind. *)
Theorem makeTimestamp_milliseconds (unixNano : Z) :
  0 <= unixNano ->
  0 <= makeTimestamp unixNano /\
  1000000 * makeTimestamp unixNano <= unixNano <
    1000000 * makeTimestamp unixNano + 1000000.
Proof.
  intros Hn. unfold makeTimestamp.
  change (Z.quot 1000000 1) with 1000000.
  rewrite Z.quot_div_nonneg by lia.
  pose proof (Z.div_mod unixNano 1000000 ltac:(lia)) as Hdm.
  pose proof (Z.mod_pos_bound unixNano 1000000 ltac:(lia)) as Hm.
  split; [apply Z.div_pos; lia | lia].
Qed.

Lemma makeTimestamp_milliseconds_witness :
  0 <= makeTimestamp 1700000000123456789 /\
  1000000 * makeTimestamp 1700000000123456789 <= 1700000000123456789 <
    1000000 * makeTimestamp 1700000000123456789 + 1000000.
Proof. apply (makeTimestamp_milliseconds 1700000000123456789). lia. Defined.

(** X15. [makeTimestamp] never runs backwards: a later clock reading gives
    a timestamp that is not smaller. *)
Theorem makeTimestamp_monotone (t1 t2 : Z) :
  t1 <= t2 -> makeTimestamp t1 <= makeTimestamp t2.
Proof.
  intros Ht. unfold makeTimestamp. change (Z.quot 1000000 1) with 1000000.
  apply Z.quot_le_mono; lia.
Qed.

Lemma makeTimestamp_monotone_witness :
  makeTimestamp (-1) <= makeTimestamp 999999.
Proof. apply makeTimestamp_monotone. lia. Defined.
